(** * Grid generator: a shallow embedding of [src/App.tsx]

    The component [App] keeps six pieces of [useState] state and defines two
    code generators, four pointer handlers and four numeric field handlers.
    This development embeds them as Rocq functions and proves the properties
    the specification states about them.

    Numbers.  Every number the component stores is an integer: the initial
    configuration is [4, 3, 4, 4], a configuration field is only ever set to
    [parseInt(..) || d], and cell coordinates are loop counters.  They are
    embedded as [Z]; the embedding is exact for magnitudes below [2^53],
    where a JavaScript number holds an integer without rounding,
    [parseInt] returns the integer it reads and [Number::toString] prints
    its plain decimal digits.  Beyond that the code rounds, and prints in
    exponent notation from [1e21]; the embedding does not follow it there.
    The single non-integer value, [rowGap * 0.25], is a multiple of one
    quarter and is embedded by the number of quarters it holds; its numeral
    is the exact one for magnitudes of [rowGap] below [2^51], beyond which
    the code prints fewer fractional digits.  Every statement whose truth
    depends on these ranges carries the bound as a hypothesis
    ([safe_integer], [exact_quarters]).

    Strings.  A [string] is read as a sequence of code units below 256. *)

From Stdlib Require Import ZArith QArith Lia String Ascii List.
From stdpp Require Import base list strings pretty.

Local Open Scope string_scope.
Local Open Scope list_scope.
Local Open Scope Z_scope.

(** ** Characters that cannot be written inside a string literal *)

(** The line feed, [\n] in the source. *)
Definition nl : string := String "010" EmptyString.

(** The double quote that delimits [class="..."] in the generated markup. *)
Definition dq : string := String "034" EmptyString.

(** ** JavaScript library functions used by the component *)

(** [Array.prototype.join]: the elements separated by [sep]; the empty array
    gives the empty string. *)
Fixpoint join (sep : string) (l : list string) : string :=
  match l with
  | [] => EmptyString
  | x :: l' =>
      match l' with
      | [] => x
      | _ :: _ => x +:+ sep +:+ join sep l'
      end
  end.

(** [Number::toString] on an integer, as a template literal applies it: the
    plain decimal digits, which is what the code prints for a
    [safe_integer]. *)
Definition Number_toString (n : Z) : string := pretty n.

(** [Number::toString] on the product [n * 0.25].  The product is exact in
    binary floating point; for [exact_quarters n] the code prints all of its
    at most two fractional digits, as here. *)
Definition quarter_digits (r : Z) : string :=
  match r with
  | 0 => EmptyString
  | 1 => ".25"
  | 2 => ".5"
  | _ => ".75"
  end.

Definition Number_toString_quarters (n : Z) : string :=
  (if n <? 0 then "-" else EmptyString)
  +:+ pretty (Z.abs n / 4) +:+ quarter_digits (Z.abs n mod 4).

(** [StrWhiteSpaceChar], restricted to code units below 256: TAB, LF, VT, FF,
    CR, SP and NBSP. *)
Definition isStrWhiteSpaceChar (c : ascii) : bool :=
  match N_of_ascii c with
  | 9%N | 10%N | 11%N | 12%N | 13%N | 32%N | 160%N => true
  | _ => false
  end.

Fixpoint trimStart (s : string) : string :=
  match s with
  | EmptyString => EmptyString
  | String c s' => if isStrWhiteSpaceChar c then trimStart s' else s
  end.

(** The value of a character as a digit in some radix up to 36. *)
Definition digitValue (c : ascii) : option Z :=
  let n := Z.of_N (N_of_ascii c) in
  if (48 <=? n) && (n <=? 57) then Some (n - 48)
  else if (97 <=? n) && (n <=? 122) then Some (n - 97 + 10)
  else if (65 <=? n) && (n <=? 90) then Some (n - 65 + 10)
  else None.

(** The longest prefix of radix-[R] digits, read as an integer; [acc] is
    [None] until a first digit has been read. *)
Fixpoint parseDigits (R : Z) (s : string) (acc : option Z) : option Z :=
  match s with
  | EmptyString => acc
  | String c s' =>
      match digitValue c with
      | Some d =>
          if d <? R then parseDigits R s' (Some (R * default 0 acc + d))
          else acc
      | None => acc
      end
  end.

(** [parseInt(string)] with the radix left out: leading white space is
    skipped, one sign is read, a [0x] or [0X] prefix selects radix 16, then
    the longest digit prefix is read.  [None] stands for [NaN].  The integer
    read is returned as it is, which is what the code returns when it is a
    [safe_integer]. *)
Definition parseInt (s : string) : option Z :=
  let S1 := trimStart s in
  let '(sign, S2) :=
    match S1 with
    | String "-" r => (-1, r)
    | String "+" r => (1, r)
    | _ => (1, S1)
    end in
  let '(R, S3) :=
    match S2 with
    | String "0" (String "x" r) => (16, r)
    | String "0" (String "X" r) => (16, r)
    | _ => (10, S2)
    end in
  match parseDigits R S3 None with
  | Some m => Some (sign * m)
  | None => None
  end.

(** [n || d] on numbers: [NaN] and zero are falsy and give [d]. *)
Definition or_default (n : option Z) (d : Z) : Z :=
  match n with
  | Some v => if v =? 0 then d else v
  | None => d
  end.

(** The integers a JavaScript number holds exactly, on which [parseInt] and
    [Number::toString] are as embedded here. *)
Definition safe_integer (n : Z) : Prop := Z.abs n < 2 ^ 53.


(** ** Data model *)

Record GridConfig : Type := mkGridConfig {
  columns : Z;
  rows : Z;
  columnGap : Z;
  rowGap : Z
}.

Record GridArea : Type := mkGridArea {
  id : string;
  rowStart : Z;
  rowEnd : Z;
  colStart : Z;
  colEnd : Z;
  color : string
}.

Record Cell : Type := mkCell {
  row : Z;
  col : Z
}.

Definition AREA_COLORS : list string := [
  "bg-gradient-to-br from-blue-500 to-blue-600";
  "bg-gradient-to-br from-emerald-500 to-emerald-600";
  "bg-gradient-to-br from-amber-500 to-amber-600";
  "bg-gradient-to-br from-rose-500 to-rose-600";
  "bg-gradient-to-br from-violet-500 to-violet-600";
  "bg-gradient-to-br from-pink-500 to-pink-600";
  "bg-gradient-to-br from-teal-500 to-teal-600";
  "bg-gradient-to-br from-orange-500 to-orange-600"
].

Definition CSS_COLORS : list string := [
  "linear-gradient(135deg, #3B82F6, #2563EB)";
  "linear-gradient(135deg, #10B981, #059669)";
  "linear-gradient(135deg, #F59E0B, #D97706)";
  "linear-gradient(135deg, #F43F5E, #E11D48)";
  "linear-gradient(135deg, #8B5CF6, #7C3AED)";
  "linear-gradient(135deg, #EC4899, #DB2777)";
  "linear-gradient(135deg, #14B8A6, #0D9488)";
  "linear-gradient(135deg, #F97316, #EA580C)"
].

(** The six [useState] cells of [App]. *)
Record State : Type := mkState {
  gridConfig : GridConfig;
  gridAreas : list GridArea;
  isDragging : bool;
  startCell : option Cell;
  currentCell : option Cell;
  showTailwind : bool
}.

Definition initialState : State := {|
  gridConfig := {| columns := 4; rows := 3; columnGap := 4; rowGap := 4 |};
  gridAreas := [];
  isDragging := false;
  startCell := None;
  currentCell := None;
  showTailwind := true
|}.

(** ** Code generators

    Both are closures over the state of the render they belong to. *)

Definition generateTailwindCode (s : State) : string :=
  let parentClasses :=
    join " " [
      "grid";
      "grid-cols-" +:+ Number_toString (columns (gridConfig s));
      "grid-rows-" +:+ Number_toString (rows (gridConfig s));
      "gap-" +:+ Number_toString (columnGap (gridConfig s))
    ] in
  let gridItems :=
    map (fun area : GridArea =>
      let classes :=
        join " " [
          "row-start-" +:+ Number_toString (rowStart area);
          "row-span-" +:+ Number_toString (rowEnd area - rowStart area);
          "col-start-" +:+ Number_toString (colStart area);
          "col-span-" +:+ Number_toString (colEnd area - colStart area);
          color area;
          "rounded-xl shadow-lg"
        ] in
      "  <div class=" +:+ dq +:+ classes +:+ dq +:+ "></div>")
      (gridAreas s) in
  "<div class=" +:+ dq +:+ parentClasses +:+ dq +:+ ">" +:+ nl
  +:+ join nl gridItems +:+ nl +:+ "</div>".

Record CSSCode : Type := mkCSSCode {
  css : string;
  html : string
}.

Definition generateCSSCode (s : State) : CSSCode :=
  let parentStyles := [
    "display: grid;";
    "grid-template-columns: repeat("
      +:+ Number_toString (columns (gridConfig s)) +:+ ", 1fr);";
    "grid-template-rows: repeat("
      +:+ Number_toString (rows (gridConfig s)) +:+ ", 1fr);";
    "gap: " +:+ Number_toString_quarters (rowGap (gridConfig s)) +:+ "rem;"
  ] in
  let cssRules :=
    join nl (imap (fun (index : nat) (area : GridArea) =>
      nl +:+ ".grid-area-" +:+ Number_toString (Z.of_nat index + 1) +:+ " {"
      +:+ nl +:+ "  grid-row: " +:+ Number_toString (rowStart area)
      +:+ " / " +:+ Number_toString (rowEnd area) +:+ ";"
      +:+ nl +:+ "  grid-column: " +:+ Number_toString (colStart area)
      +:+ " / " +:+ Number_toString (colEnd area) +:+ ";"
      +:+ nl +:+ "  background: "
      +:+ CSS_COLORS !!! (index mod length CSS_COLORS)%nat +:+ ";"
      +:+ nl +:+ "  border-radius: 0.75rem;"
      +:+ nl +:+ "  box-shadow: 0 10px 15px -3px rgb(0 0 0 / 0.1);"
      +:+ nl +:+ "}") (gridAreas s)) in
  let htmlCode :=
    join nl (imap (fun (index : nat) (_ : GridArea) =>
      "  <div class=" +:+ dq +:+ "grid-area-"
      +:+ Number_toString (Z.of_nat index + 1) +:+ dq +:+ "></div>")
      (gridAreas s)) in
  {| css := ".grid-container {" +:+ nl +:+ "  "
            +:+ join (nl +:+ "  ") parentStyles +:+ nl +:+ "}" +:+ nl
            +:+ cssRules;
     html := "<div class=" +:+ dq +:+ "grid-container" +:+ dq +:+ ">" +:+ nl
             +:+ htmlCode +:+ nl +:+ "</div>" |}.

(** ** Event handlers

    A handler reads the state of the render it was created in and queues
    updates; the updates take effect together once the handler returns.  A
    computation therefore takes the render's snapshot, which it may read, and
    the pending state, which the setters rewrite. *)

Definition Handler (A : Type) : Type := State -> State -> A * State.

Definition ret {A : Type} (a : A) : Handler A := fun _ p => (a, p).

Definition bind {A B : Type} (m : Handler A) (k : A -> Handler B) : Handler B :=
  fun s p => let '(a, p') := m s p in k a s p'.

Definition read {A : Type} (f : State -> A) : Handler A := fun s p => (f s, p).

Declare Scope handler_scope.
Delimit Scope handler_scope with handler.
Bind Scope handler_scope with Handler.

Notation "x <- m ;; k" := (bind m (fun x => k))
  (at level 100, m at next level, k at level 200, right associativity)
  : handler_scope.
Notation "m ;; k" := (bind m (fun _ => k))
  (at level 100, k at level 200, right associativity) : handler_scope.

Local Open Scope handler_scope.

Definition setGridConfig (c : GridConfig) : Handler unit :=
  fun _ p => (tt, mkState c (gridAreas p) (isDragging p) (startCell p)
                          (currentCell p) (showTailwind p)).

Definition setGridAreas (l : list GridArea) : Handler unit :=
  fun _ p => (tt, mkState (gridConfig p) l (isDragging p) (startCell p)
                          (currentCell p) (showTailwind p)).

Definition setIsDragging (b : bool) : Handler unit :=
  fun _ p => (tt, mkState (gridConfig p) (gridAreas p) b (startCell p)
                          (currentCell p) (showTailwind p)).

Definition setStartCell (c : option Cell) : Handler unit :=
  fun _ p => (tt, mkState (gridConfig p) (gridAreas p) (isDragging p) c
                          (currentCell p) (showTailwind p)).

Definition setCurrentCell (c : option Cell) : Handler unit :=
  fun _ p => (tt, mkState (gridConfig p) (gridAreas p) (isDragging p)
                          (startCell p) c (showTailwind p)).

Definition setShowTailwind (b : bool) : Handler unit :=
  fun _ p => (tt, mkState (gridConfig p) (gridAreas p) (isDragging p)
                          (startCell p) (currentCell p) b).

(** Running a handler on a render: the pending state starts as the
    snapshot, and the state after the handler is what it queued. *)
Definition dispatch (h : Handler unit) (s : State) : State := snd (h s s).

Definition handleMouseDown (row col : Z) : Handler unit :=
  setIsDragging true ;;
  setStartCell (Some {| row := row; col := col |}) ;;
  setCurrentCell (Some {| row := row; col := col |}).

Definition handleMouseEnter (row col : Z) : Handler unit :=
  dragging <- read isDragging ;;
  if dragging then setCurrentCell (Some {| row := row; col := col |})
  else ret tt.

(** [now] is the reading of [Date.now()] taken when the handler runs. *)
Definition handleMouseUp (now : Z) : Handler unit :=
  dragging <- read isDragging ;;
  start <- read startCell ;;
  current <- read currentCell ;;
  areas <- read gridAreas ;;
  match dragging, start, current with
  | true, Some startCell, Some currentCell =>
      let rowStart := Z.min (row startCell) (row currentCell) in
      let rowEnd := Z.max (row startCell) (row currentCell) + 1 in
      let colStart := Z.min (col startCell) (col currentCell) in
      let colEnd := Z.max (col startCell) (col currentCell) + 1 in
      setGridAreas (areas ++ [ {|
        id := "area-" +:+ Number_toString now;
        rowStart := rowStart;
        rowEnd := rowEnd;
        colStart := colStart;
        colEnd := colEnd;
        color := AREA_COLORS !!! (length areas mod length AREA_COLORS)%nat
      |} ])
  | _, _, _ => ret tt
  end ;;
  setIsDragging false ;;
  setStartCell None ;;
  setCurrentCell None.

(** The four [onChange] handlers of the numeric fields; [value] is
    [e.target.value]. *)
Definition changeColumns (value : string) : Handler unit :=
  c <- read gridConfig ;;
  setGridConfig {| columns := or_default (parseInt value) 1;
                   rows := rows c;
                   columnGap := columnGap c;
                   rowGap := rowGap c |}.

Definition changeRows (value : string) : Handler unit :=
  c <- read gridConfig ;;
  setGridConfig {| columns := columns c;
                   rows := or_default (parseInt value) 1;
                   columnGap := columnGap c;
                   rowGap := rowGap c |}.

Definition changeColumnGap (value : string) : Handler unit :=
  c <- read gridConfig ;;
  setGridConfig {| columns := columns c;
                   rows := rows c;
                   columnGap := or_default (parseInt value) 0;
                   rowGap := rowGap c |}.

Definition changeRowGap (value : string) : Handler unit :=
  c <- read gridConfig ;;
  setGridConfig {| columns := columns c;
                   rows := rows c;
                   columnGap := columnGap c;
                   rowGap := or_default (parseInt value) 0 |}.

(** The reset button and the syntax selector. *)
Definition resetGridAreas : Handler unit := setGridAreas [].

Definition changeSyntax (value : string) : Handler unit :=
  setShowTailwind (String.eqb value "tailwind").

(** ** Render-time queries *)

Definition isInSelection (s : State) (row col : Z) : bool :=
  match isDragging s, startCell s, currentCell s with
  | true, Some (mkCell startRow startCol), Some (mkCell currentRow currentCol) =>
      let rowStart := Z.min startRow currentRow in
      let rowEnd := Z.max startRow currentRow in
      let colStart := Z.min startCol currentCol in
      let colEnd := Z.max startCol currentCol in
      (row >=? rowStart) && (row <=? rowEnd)
      && (col >=? colStart) && (col <=? colEnd)
  | _, _, _ => false
  end.

(** The predicate [getGridAreaColor] hands to [find]. *)
Definition covers (row col : Z) (area : GridArea) : bool :=
  (row >=? rowStart area) && (row <? rowEnd area)
  && (col >=? colStart area) && (col <? colEnd area).

Definition getGridAreaColor (s : State) (row col : Z) : string :=
  match find (covers row col) (gridAreas s) with
  | Some area => color area
  | None => EmptyString
  end.

(** ** Wiring of the handlers, and the states a session can reach *)

(** The root element passes [handleMouseUp] both as [onMouseUp] and as
    [onMouseLeave]. *)
Definition onMouseUp (now : Z) : Handler unit := handleMouseUp now.
Definition onMouseLeave (now : Z) : Handler unit := handleMouseUp now.

(** The events of the page that change the component state.  The copy button
    only hands a string to the clipboard and is left out. *)
Inductive Event : Type :=
| MouseDown (row col : Z)
| MouseEnter (row col : Z)
| MouseUp (now : Z)
| MouseLeave (now : Z)
| ColumnsChange (value : string)
| RowsChange (value : string)
| ColumnGapChange (value : string)
| RowGapChange (value : string)
| ResetClick
| SyntaxChange (value : string).

Definition handlerOf (e : Event) : Handler unit :=
  match e with
  | MouseDown row col => handleMouseDown row col
  | MouseEnter row col => handleMouseEnter row col
  | MouseUp now => onMouseUp now
  | MouseLeave now => onMouseLeave now
  | ColumnsChange value => changeColumns value
  | RowsChange value => changeRows value
  | ColumnGapChange value => changeColumnGap value
  | RowGapChange value => changeRowGap value
  | ResetClick => resetGridAreas
  | SyntaxChange value => changeSyntax value
  end.

Definition step (s : State) (e : Event) : State := dispatch (handlerOf e) s.

Definition run (s : State) (es : list Event) : State := fold_left step es s.

Inductive reachable : State -> Prop :=
| reach_init : reachable initialState
| reach_step (s : State) (e : Event) : reachable s -> reachable (step s e).

(** ** Lines of a text *)

Definition is_nl (c : ascii) : bool := Ascii.eqb c "010".

Fixpoint nl_free (s : string) : bool :=
  match s with
  | EmptyString => true
  | String c s' => negb (is_nl c) && nl_free s'
  end.

(** The text cut at every line feed; a text with [n] line feeds has [n + 1]
    lines. *)
Fixpoint lines (s : string) : list string :=
  match s with
  | EmptyString => [EmptyString]
  | String c s' =>
      if is_nl c then EmptyString :: lines s'
      else match lines s' with
           | l :: ls => String c l :: ls
           | [] => [String c EmptyString]
           end
  end.

(** ** The texts the specification gives for the primary syntax *)

(** The class list of the parent element. *)
Definition spec_parent_classes (c : GridConfig) : string :=
  "grid grid-cols-" +:+ Number_toString (columns c)
  +:+ " grid-rows-" +:+ Number_toString (rows c)
  +:+ " gap-" +:+ Number_toString (columnGap c).

(** The class list of the child element of one area. *)
Definition spec_child_classes (a : GridArea) : string :=
  "row-start-" +:+ Number_toString (rowStart a)
  +:+ " row-span-" +:+ Number_toString (rowEnd a - rowStart a)
  +:+ " col-start-" +:+ Number_toString (colStart a)
  +:+ " col-span-" +:+ Number_toString (colEnd a - colStart a)
  +:+ " " +:+ color a +:+ " rounded-xl shadow-lg".

(** The lines that carry them: the opening tag of the parent, and the
    indented, empty child element. *)
Definition parent_line (c : GridConfig) : string :=
  "<div class=" +:+ dq +:+ spec_parent_classes c +:+ dq +:+ ">".

Definition child_line (a : GridArea) : string :=
  "  <div class=" +:+ dq +:+ spec_child_classes a +:+ dq +:+ "></div>".

(** ** The number a decimal numeral denotes

    What a reader of the generated style sheet takes a numeral for: an
    optional minus sign, digits, and optionally a point and more digits. *)




(** ** Character classes and predicates used in the statements *)

(** The digits from 1 to 9, one of which starts every positive numeral. *)
Definition isNonZeroDigit (c : ascii) : bool :=
  let n := N_of_ascii c in (49 <=? n)%N && (n <=? 57)%N.

(** The digits from 0 to 9. *)
Definition isDecimalDigit (c : ascii) : bool :=
  let n := N_of_ascii c in (48 <=? n)%N && (n <=? 57)%N.

(** An area that covers at least one cell. *)
Definition nonempty_area (a : GridArea) : Prop :=
  rowStart a < rowEnd a /\ colStart a < colEnd a.

(** The area at every position carries the preview palette entry of that
    position, cyclically. *)
Definition palette_colored (l : list GridArea) : Prop :=
  forall (N : nat) (a : GridArea),
    l !! N = Some a -> AREA_COLORS !! (N mod 8)%nat = Some (color a).

(** ** The texts the specification gives for the secondary syntax *)

(** The container rule and the rule of one area, as the specification words
    them; [position] counts areas from 1 and [gradient] is the background. *)
Definition spec_container_rule (c : GridConfig) : string :=
  ".grid-container {" +:+ nl
  +:+ "  display: grid;" +:+ nl
  +:+ "  grid-template-columns: repeat(" +:+ Number_toString (columns c)
  +:+ ", 1fr);" +:+ nl
  +:+ "  grid-template-rows: repeat(" +:+ Number_toString (rows c)
  +:+ ", 1fr);" +:+ nl
  +:+ "  gap: " +:+ Number_toString_quarters (rowGap c) +:+ "rem;" +:+ nl
  +:+ "}".



(** ** Sample states *)

(** The scenario of the specification: the default configuration and the one
    area 1, 3, 1, 3 in the first palette colour. *)
Definition scenario_state : State := {|
  gridConfig := {| columns := 4; rows := 3; columnGap := 4; rowGap := 4 |};
  gridAreas := [ {| id := "area-0"; rowStart := 1; rowEnd := 3;
                    colStart := 1; colEnd := 3;
                    color := "bg-gradient-to-br from-blue-500 to-blue-600" |} ];
  isDragging := false;
  startCell := None;
  currentCell := None;
  showTailwind := true
|}.

(** The same bounds under another colour token, id and column gap. *)
Definition recolored_state : State := {|
  gridConfig := {| columns := 4; rows := 3; columnGap := 9; rowGap := 4 |};
  gridAreas := [ {| id := "other"; rowStart := 1; rowEnd := 3;
                    colStart := 1; colEnd := 3; color := "bg-red-500" |} ];
  isDragging := false;
  startCell := None;
  currentCell := None;
  showTailwind := true
|}.

(** A press on (2, 2), not yet released. *)
Definition press_state : State := run initialState [MouseDown 2 2].

(** A drag from (3, 1) up to (1, 1), not yet released. *)
Definition drag_up_state : State :=
  run initialState [MouseDown 3 1; MouseEnter 1 1].

(** One committed gesture. *)
Definition one_area_state : State :=
  run initialState [MouseDown 1 1; MouseEnter 2 2; MouseUp 0].

(** Nine clicks on the cell (1, 1). *)
Definition nine_areas_state : State :=
  run initialState
    (concat (replicate 9 [MouseDown 1 1; MouseUp 0])).

(** Two areas with the same bounds, the blue one first. *)
Definition overlap_state : State := {|
  gridConfig := gridConfig scenario_state;
  gridAreas := gridAreas scenario_state ++ gridAreas recolored_state;
  isDragging := false;
  startCell := None;
  currentCell := None;
  showTailwind := true
|}.

(** A second gesture, from (2, 2) to (3, 3), in progress over the first
    area. *)
Definition overlap_drag_state : State :=
  run one_area_state [MouseDown 2 2; MouseEnter 3 3].

(** ** The rest of the render: grid cells, displayed code, selector, copy *)

(** [a || b] on strings: the empty string is falsy. *)
Definition or_string (a b : string) : string :=
  match a with
  | EmptyString => b
  | String _ _ => a
  end.

(** The element [renderGrid] pushes for one cell: its key, its class
    attribute and the two handlers it carries. *)
Record GridCell : Type := mkGridCell {
  key : string;
  className : string;
  onMouseDown : Handler unit;
  onMouseEnter : Handler unit
}.

Definition gridCell (s : State) (row col : Z) : GridCell :=
  let inSelection := isInSelection s row col in
  let areaColor := getGridAreaColor s row col in
  {| key := Number_toString row +:+ "-" +:+ Number_toString col;
     className :=
       nl +:+ "              grid-cell"
       +:+ nl +:+ "              border border-purple-500/20"
       +:+ nl +:+ "              rounded-lg"
       +:+ nl +:+ "              cursor-pointer"
       +:+ nl +:+ "              "
       +:+ (if inSelection
            then "shadow-lg bg-purple-500/30 shadow-purple-500/20"
            else EmptyString)
       +:+ nl +:+ "              "
       +:+ or_string areaColor "bg-gray-800/50 hover:bg-gray-800/80"
       +:+ nl +:+ "            ";
     onMouseDown := handleMouseDown row col;
     onMouseEnter := handleMouseEnter row col |}.

(** The two nested loops, [row] from 1 to [rows] and [col] from 1 to
    [columns]. *)
Definition renderGrid (s : State) : list GridCell :=
  flat_map
    (fun row : Z =>
       map (fun col : Z => gridCell s row col)
         (seqZ 1 (columns (gridConfig s))))
    (seqZ 1 (rows (gridConfig s))).

(** The texts of the [code] elements [renderCode] shows: the primary syntax,
    or the style sheet and the markup of the secondary syntax. *)
Definition renderCode (s : State) : list string :=
  if showTailwind s then [generateTailwindCode s]
  else [css (generateCSSCode s); html (generateCSSCode s)].

(** The [value] of the syntax selector. *)
Definition selectValue (s : State) : string :=
  if showTailwind s then "tailwind" else "css".

(** The text the copy button hands to [copyToClipboard]. *)
Definition copyText (s : State) : string :=
  if showTailwind s then generateTailwindCode s
  else css (generateCSSCode s) +:+ nl +:+ nl +:+ html (generateCSSCode s).

(** A text of decimal digits only. *)
Fixpoint all_digits (s : string) : bool :=
  match s with
  | EmptyString => true
  | String c s' => isDecimalDigit c && all_digits s'
  end.

(** ** What a user can do

    Presses and moves reach the component only through the handlers of the
    cells the current render shows; the other events are always there. *)
Inductive user_step (s : State) : State -> Prop :=
| user_press (cell : GridCell) :
    In cell (renderGrid s) -> user_step s (dispatch (onMouseDown cell) s)
| user_move (cell : GridCell) :
    In cell (renderGrid s) -> user_step s (dispatch (onMouseEnter cell) s)
| user_release (now : Z) : user_step s (dispatch (onMouseUp now) s)
| user_leave (now : Z) : user_step s (dispatch (onMouseLeave now) s)
| user_columns (value : string) : user_step s (dispatch (changeColumns value) s)
| user_rows (value : string) : user_step s (dispatch (changeRows value) s)
| user_columnGap (value : string) :
    user_step s (dispatch (changeColumnGap value) s)
| user_rowGap (value : string) : user_step s (dispatch (changeRowGap value) s)
| user_reset : user_step s (dispatch resetGridAreas s)
| user_syntax (value : string) : user_step s (dispatch (changeSyntax value) s).

Inductive user_reachable : State -> Prop :=
| user_init : user_reachable initialState
| user_next (s s' : State) :
    user_reachable s -> user_step s s' -> user_reachable s'.

(** ** Predicates of the further statements *)

(** The gesture cells are present exactly while dragging. *)
Definition gesture_consistent (s : State) : Prop :=
  (isDragging s = true /\ is_Some (startCell s) /\ is_Some (currentCell s))
  \/ (isDragging s = false /\ startCell s = None /\ currentCell s = None).

(** A cell that the grid of a configuration shows. *)
Definition cell_in_grid (c : GridConfig) (x : Cell) : Prop :=
  1 <= row x <= rows c /\ 1 <= col x <= columns c.

(** An area that lies on the grid lines of a configuration. *)
Definition area_in_grid (c : GridConfig) (a : GridArea) : Prop :=
  1 <= rowStart a /\ rowEnd a <= rows c + 1
  /\ 1 <= colStart a /\ colEnd a <= columns c + 1.

(** The registry and the gesture both lie inside the grid. *)
Definition inside_grid (s : State) : Prop :=
  Forall (area_in_grid (gridConfig s)) (gridAreas s)
  /\ (forall x : Cell, startCell s = Some x -> cell_in_grid (gridConfig s) x)
  /\ (forall x : Cell, currentCell s = Some x -> cell_in_grid (gridConfig s) x).

(** Bounds counted from line 1, for an area, a cell, and a whole state. *)
Definition area_from_one (a : GridArea) : Prop :=
  1 <= rowStart a /\ 1 <= colStart a.

Definition cell_from_one (x : Cell) : Prop := 1 <= row x /\ 1 <= col x.

Definition from_one (s : State) : Prop :=
  Forall area_from_one (gridAreas s)
  /\ (forall x : Cell, startCell s = Some x -> cell_from_one x)
  /\ (forall x : Cell, currentCell s = Some x -> cell_from_one x).

(** The markup line of the element for the area at a 1-indexed position. *)
Definition html_child_line (position : Z) : string :=
  "  <div class=" +:+ dq +:+ "grid-area-" +:+ Number_toString position
  +:+ dq +:+ "></div>".

(** A gesture from (1, 1) to (3, 4), and then the rows field set to 1. *)
Definition shrunk_state : State :=
  run initialState [MouseDown 1 1; MouseEnter 3 4; MouseUp 0; RowsChange "1"].

(** The configuration field an event writes, if any: 0 for columns, 1 for
    rows, 2 for the column gap, 3 for the row gap. *)
Definition changed_field (e : Event) : option nat :=
  match e with
  | ColumnsChange _ => Some 0%nat
  | RowsChange _ => Some 1%nat
  | ColumnGapChange _ => Some 2%nat
  | RowGapChange _ => Some 3%nat
  | _ => None
  end.

(** The clock readings of the releases and pointer leaves of a trace. *)
Definition release_times (es : list Event) : list Z :=
  flat_map (fun e => match e with
                     | MouseUp now | MouseLeave now => [now]
                     | _ => []
                     end) es.

(** The moves of a pointer path. *)
Definition moves (path : list Cell) : list Event :=
  map (fun x : Cell => MouseEnter (row x) (col x)) path.

(** * Proofs *)

(** ** Strings *)

Lemma sapp_nil_l (s : string) : EmptyString +:+ s = s.
Proof. reflexivity. Qed.

Lemma sapp_cons (c : ascii) (a b : string) :
  String c a +:+ b = String c (a +:+ b).
Proof. reflexivity. Qed.

Lemma sapp_assoc (a b c : string) : (a +:+ b) +:+ c = a +:+ (b +:+ c).
Proof.
  induction a as [|x a IH]; [reflexivity|].
  rewrite !sapp_cons, IH. reflexivity.
Qed.

Lemma nl_free_app (a b : string) :
  nl_free (a +:+ b) = nl_free a && nl_free b.
Proof.
  induction a as [|c a IH]; [reflexivity|].
  rewrite sapp_cons. simpl. rewrite IH. apply andb_assoc.
Qed.

Lemma lines_app (a b : string) :
  nl_free a = true -> lines (a +:+ nl +:+ b) = a :: lines b.
Proof.
  induction a as [|c a IH]; [reflexivity|].
  simpl. intros [Hc Ha]%andb_true_iff.
  apply negb_true_iff in Hc.
  rewrite Hc, (IH Ha). reflexivity.
Qed.

(** The lines of a joined array followed by more text: the elements, or one
    empty line when the array is empty. *)
Lemma lines_join_app (l : list string) (t : string) :
  Forall (fun x => nl_free x = true) l ->
  lines (join nl l +:+ nl +:+ t)
  = (match l with [] => [EmptyString] | _ :: _ => l end ++ lines t)%list.
Proof.
  induction l as [|x l IH]; [reflexivity|].
  intros H. apply Forall_cons in H as [Hx Hl].
  destruct l as [|y l].
  - simpl. apply lines_app, Hx.
  - change (join nl (x :: y :: l)) with (x +:+ nl +:+ join nl (y :: l)).
    rewrite !sapp_assoc. rewrite (lines_app _ _ Hx).
    rewrite (IH Hl). reflexivity.
Qed.

(** ** Decimal numerals contain digits only *)

Lemma pretty_N_char_not_nl (d : N) : is_nl (pretty_N_char d) = false.
Proof. unfold pretty_N_char. repeat case_match; reflexivity. Qed.

Lemma nl_free_pretty_N_go (x : N) (s : string) :
  nl_free (pretty_N_go x s) = nl_free s.
Proof.
  revert s. induction (N.lt_wf_0 x) as [x _ IH]; intros s.
  destruct (decide (x = 0%N)) as [->|Hx]; [reflexivity|].
  rewrite pretty_N_go_step by lia.
  rewrite IH by (apply N.div_lt; lia).
  simpl. rewrite pretty_N_char_not_nl. reflexivity.
Qed.

Lemma nl_free_pretty_N (x : N) : nl_free (pretty x) = true.
Proof.
  unfold pretty, pretty_N. case_decide; [reflexivity|].
  apply nl_free_pretty_N_go.
Qed.

Lemma nl_free_Number_toString (n : Z) : nl_free (Number_toString n) = true.
Proof.
  unfold Number_toString, pretty, pretty_Z.
  destruct n as [|p|p]; [reflexivity| |].
  - apply (nl_free_pretty_N (Npos p)).
  - rewrite nl_free_app. apply (nl_free_pretty_N (Npos p)).
Qed.

(** ** The primary syntax *)

Lemma generateTailwindCode_unfold (s : State) :
  generateTailwindCode s
  = parent_line (gridConfig s) +:+ nl
    +:+ join nl (map child_line (gridAreas s)) +:+ nl +:+ "</div>".
Proof.
  unfold generateTailwindCode, parent_line, child_line,
    spec_parent_classes, spec_child_classes.
  cbn [join]. rewrite !sapp_assoc. reflexivity.
Qed.

Lemma nl_free_parent_line (c : GridConfig) : nl_free (parent_line c) = true.
Proof.
  unfold parent_line, spec_parent_classes.
  rewrite !nl_free_app, !nl_free_Number_toString. reflexivity.
Qed.

Lemma nl_free_child_line (a : GridArea) :
  nl_free (color a) = true -> nl_free (child_line a) = true.
Proof.
  intros Hc. unfold child_line, spec_child_classes.
  rewrite !nl_free_app, !nl_free_Number_toString, Hc. reflexivity.
Qed.

(** C1.  For every configuration and registry the primary-syntax generator
    gives the parent line, whose class list is
    [grid grid-cols-{columns} grid-rows-{rows} gap-{columnGap}], then the
    child lines joined by line feeds, then the closing tag.  The row gap is
    not read.  When no colour token holds a line feed, the lines between the
    parent line and the closing tag are exactly the child lines of the areas,
    one per area in registry order (a single empty line for the empty
    registry), each with the class list
    [row-start-{rowStart} row-span-{rowEnd-rowStart} col-start-{colStart}
    col-span-{colEnd-colStart} {color} rounded-xl shadow-lg].  For the
    configuration 4, 3, 4, 4 and the one area 1, 3, 1, 3 the two class lists
    are [grid grid-cols-4 grid-rows-3 gap-4] and
    [row-start-1 row-span-2 col-start-1 col-span-2 {color} rounded-xl
    shadow-lg]. *)
Theorem generateTailwindCode_lines (s : State) :
  generateTailwindCode s
  = parent_line (gridConfig s) +:+ nl
    +:+ join nl (map child_line (gridAreas s)) +:+ nl +:+ "</div>"
  /\ (forall s' : State,
        columns (gridConfig s') = columns (gridConfig s) ->
        rows (gridConfig s') = rows (gridConfig s) ->
        columnGap (gridConfig s') = columnGap (gridConfig s) ->
        gridAreas s' = gridAreas s ->
        generateTailwindCode s' = generateTailwindCode s)
  /\ (Forall (fun a => nl_free (color a) = true) (gridAreas s) ->
      lines (generateTailwindCode s)
      = (parent_line (gridConfig s)
         :: match gridAreas s with
            | [] => [EmptyString]
            | _ :: _ => map child_line (gridAreas s)
            end ++ ["</div>"])%list
      /\ forall (i : nat) (a : GridArea),
           gridAreas s !! i = Some a ->
           lines (generateTailwindCode s) !! S i = Some (child_line a))
  /\ (forall (i c : string),
        gridConfig s
        = {| columns := 4; rows := 3; columnGap := 4; rowGap := 4 |} ->
        gridAreas s
        = [ {| id := i; rowStart := 1; rowEnd := 3; colStart := 1;
               colEnd := 3; color := c |} ] ->
        generateTailwindCode s
        = "<div class=" +:+ dq +:+ "grid grid-cols-4 grid-rows-3 gap-4"
          +:+ dq +:+ ">" +:+ nl
          +:+ "  <div class=" +:+ dq
          +:+ "row-start-1 row-span-2 col-start-1 col-span-2 " +:+ c
          +:+ " rounded-xl shadow-lg" +:+ dq +:+ "></div>" +:+ nl
          +:+ "</div>").
Proof.
  split; [apply generateTailwindCode_unfold|].
  split.
  { intros s' Hc Hr Hg Ha. unfold generateTailwindCode.
    rewrite Hc, Hr, Hg, Ha. reflexivity. }
  split.
  { intros Hcol.
    assert (Hlines : lines (generateTailwindCode s)
      = (parent_line (gridConfig s)
         :: match gridAreas s with
            | [] => [EmptyString]
            | _ :: _ => map child_line (gridAreas s)
            end ++ ["</div>"])%list).
    { rewrite generateTailwindCode_unfold.
      rewrite (lines_app _ _ (nl_free_parent_line _)).
      rewrite lines_join_app.
      - destruct (gridAreas s); reflexivity.
      - apply Forall_map. eapply Forall_impl; [exact Hcol|].
        intros a Ha. apply nl_free_child_line, Ha. }
    split; [exact Hlines|].
    intros i a Hi. rewrite Hlines. simpl.
    destruct (gridAreas s) as [|a0 l] eqn:E; [discriminate|].
    rewrite lookup_app_l.
    - rewrite list_lookup_fmap, Hi. reflexivity.
    - rewrite length_map. eapply lookup_lt_Some, Hi. }
  intros i c Hc Ha. unfold generateTailwindCode. rewrite Hc, Ha.
  cbn [join map columns rows columnGap rowStart rowEnd colStart colEnd color].
  rewrite !sapp_assoc. reflexivity.
Qed.

(** ** The release handler *)

(** What [handleMouseUp] leaves behind, with the monad unfolded. *)
Lemma dispatch_handleMouseUp (now : Z) (s : State) :
  dispatch (handleMouseUp now) s
  = {| gridConfig := gridConfig s;
       gridAreas :=
         match isDragging s, startCell s, currentCell s with
         | true, Some a, Some b =>
             gridAreas s ++ [ {|
               id := "area-" +:+ Number_toString now;
               rowStart := Z.min (row a) (row b);
               rowEnd := Z.max (row a) (row b) + 1;
               colStart := Z.min (col a) (col b);
               colEnd := Z.max (col a) (col b) + 1;
               color := AREA_COLORS
                          !!! (length (gridAreas s) mod length AREA_COLORS)%nat
             |} ]
         | _, _, _ => gridAreas s
         end;
       isDragging := false;
       startCell := None;
       currentCell := None;
       showTailwind := showTailwind s |}.
Proof.
  destruct s as [cfg areas [] [a|] [b|] tw]; reflexivity.
Qed.

Lemma handleMouseUp_active (now : Z) (s : State) (a b : Cell) :
  isDragging s = true -> startCell s = Some a -> currentCell s = Some b ->
  gridAreas (dispatch (handleMouseUp now) s)
  = gridAreas s ++ [ {|
      id := "area-" +:+ Number_toString now;
      rowStart := Z.min (row a) (row b);
      rowEnd := Z.max (row a) (row b) + 1;
      colStart := Z.min (col a) (col b);
      colEnd := Z.max (col a) (col b) + 1;
      color := AREA_COLORS
                 !!! (length (gridAreas s) mod length AREA_COLORS)%nat
    |} ].
Proof.
  intros Hd Ha Hb. rewrite dispatch_handleMouseUp, Hd, Ha, Hb. reflexivity.
Qed.

Lemma handleMouseUp_idle (now : Z) (s : State) :
  isDragging s = false \/ startCell s = None \/ currentCell s = None ->
  gridAreas (dispatch (handleMouseUp now) s) = gridAreas s.
Proof.
  rewrite dispatch_handleMouseUp.
  intros [H|[H|H]]; rewrite H; simpl; repeat case_match; reflexivity.
Qed.

(** The press and move handlers touch the gesture only. *)
Lemma dispatch_handleMouseDown (r c : Z) (s : State) :
  dispatch (handleMouseDown r c) s
  = {| gridConfig := gridConfig s;
       gridAreas := gridAreas s;
       isDragging := true;
       startCell := Some {| row := r; col := c |};
       currentCell := Some {| row := r; col := c |};
       showTailwind := showTailwind s |}.
Proof. reflexivity. Qed.

Lemma dispatch_handleMouseEnter (r c : Z) (s : State) :
  dispatch (handleMouseEnter r c) s
  = {| gridConfig := gridConfig s;
       gridAreas := gridAreas s;
       isDragging := isDragging s;
       startCell := startCell s;
       currentCell :=
         if isDragging s then Some {| row := r; col := c |}
         else currentCell s;
       showTailwind := showTailwind s |}.
Proof. destruct s as [cfg areas [] a b tw]; reflexivity. Qed.

(** Only a release, a pointer leave and the reset button write the registry. *)
Lemma step_gridAreas (s : State) (e : Event) :
  gridAreas (step s e)
  = match e with
    | MouseUp now | MouseLeave now => gridAreas (dispatch (handleMouseUp now) s)
    | ResetClick => []
    | _ => gridAreas s
    end.
Proof.
  destruct e; try reflexivity.
  unfold step, handlerOf. rewrite dispatch_handleMouseEnter. reflexivity.
Qed.

(** C2.  For every active gesture with start cell (sr, sc) and current cell
    (cr, cc), the release handler appends one area whose bounds are
    min(sr, cr), max(sr, cr) + 1, min(sc, cc), max(sc, cc) + 1; a gesture
    with the two cells exchanged appends the same area; and pressing on
    (3, 1), moving to (1, 1) and releasing appends the area 1, 4, 1, 2. *)
Theorem handleMouseUp_commits_normalized :
  (forall (now : Z) (s : State) (sr sc cr cc : Z),
     isDragging s = true ->
     startCell s = Some {| row := sr; col := sc |} ->
     currentCell s = Some {| row := cr; col := cc |} ->
     exists area : GridArea,
       gridAreas (dispatch (handleMouseUp now) s) = gridAreas s ++ [area]
       /\ rowStart area = Z.min sr cr /\ rowEnd area = Z.max sr cr + 1
       /\ colStart area = Z.min sc cc /\ colEnd area = Z.max sc cc + 1
       /\ forall s' : State,
            isDragging s' = true ->
            startCell s' = Some {| row := cr; col := cc |} ->
            currentCell s' = Some {| row := sr; col := sc |} ->
            gridAreas s' = gridAreas s ->
            gridAreas (dispatch (handleMouseUp now) s') = gridAreas s ++ [area])
  /\ (forall (now : Z) (s : State),
        exists area : GridArea,
          gridAreas (run s [MouseDown 3 1; MouseEnter 1 1; MouseUp now])
          = gridAreas s ++ [area]
          /\ rowStart area = 1 /\ rowEnd area = 4
          /\ colStart area = 1 /\ colEnd area = 2).
Proof.
  split.
  - intros now s sr sc cr cc Hd Ha Hb.
    eexists. split; [apply (handleMouseUp_active now s _ _ Hd Ha Hb)|].
    simpl. repeat (split; [reflexivity|]).
    intros s' Hd' Ha' Hb' Hareas.
    rewrite (handleMouseUp_active now s' _ _ Hd' Ha' Hb'), Hareas. simpl.
    rewrite (Z.min_comm cr sr), (Z.max_comm cr sr),
      (Z.min_comm cc sc), (Z.max_comm cc sc).
    reflexivity.
  - intros now s. eexists. split.
    + unfold run, fold_left, step, handlerOf, onMouseUp.
      rewrite (handleMouseUp_active now _ {| row := 3; col := 1 |}
                 {| row := 1; col := 1 |}); reflexivity.
    + simpl. repeat split; reflexivity.
Qed.

(** C8.  After the release handler the gesture is cleared (not dragging, no
    start cell, no current cell) whether or not an area was committed, the
    configuration and the selected syntax are untouched, and without an
    active gesture the registry is unchanged. *)
Theorem handleMouseUp_clears_gesture (now : Z) (s : State) :
  isDragging (dispatch (handleMouseUp now) s) = false
  /\ startCell (dispatch (handleMouseUp now) s) = None
  /\ currentCell (dispatch (handleMouseUp now) s) = None
  /\ gridConfig (dispatch (handleMouseUp now) s) = gridConfig s
  /\ showTailwind (dispatch (handleMouseUp now) s) = showTailwind s
  /\ (isDragging s = false \/ startCell s = None \/ currentCell s = None ->
      gridAreas (dispatch (handleMouseUp now) s) = gridAreas s).
Proof.
  rewrite dispatch_handleMouseUp at 1 2 3 4 5. simpl.
  repeat (split; [reflexivity|]).
  apply handleMouseUp_idle.
Qed.

(** ** Areas are never empty *)

Lemma handleMouseUp_preserves_nonempty (now : Z) (s : State) :
  Forall nonempty_area (gridAreas s) ->
  Forall nonempty_area (gridAreas (dispatch (handleMouseUp now) s)).
Proof.
  intros H. rewrite dispatch_handleMouseUp. simpl.
  destruct (isDragging s), (startCell s) as [a|], (currentCell s) as [b|];
    try exact H.
  apply Forall_app. split; [exact H|].
  constructor; [|constructor].
  unfold nonempty_area. simpl. lia.
Qed.

Lemma step_preserves_nonempty (s : State) (e : Event) :
  Forall nonempty_area (gridAreas s) ->
  Forall nonempty_area (gridAreas (step s e)).
Proof.
  intros H. rewrite step_gridAreas.
  destruct e; try exact H; try (apply handleMouseUp_preserves_nonempty, H).
  constructor.
Qed.

(** C9.  Every area of every reachable registry has rowStart < rowEnd and
    colStart < colEnd; every event preserves this, from any state; and a
    press and release on one cell commits the 1 by 1 area of that cell. *)
Theorem areas_never_degenerate :
  (forall s : State, reachable s -> Forall nonempty_area (gridAreas s))
  /\ (forall (s : State) (e : Event),
        Forall nonempty_area (gridAreas s) ->
        Forall nonempty_area (gridAreas (step s e)))
  /\ (forall (now : Z) (s : State) (c : Cell),
        isDragging s = true -> startCell s = Some c -> currentCell s = Some c ->
        exists area : GridArea,
          gridAreas (dispatch (handleMouseUp now) s) = gridAreas s ++ [area]
          /\ rowStart area = row c /\ rowEnd area = rowStart area + 1
          /\ colStart area = col c /\ colEnd area = colStart area + 1).
Proof.
  split; [|split].
  - intros s Hs. induction Hs as [|s e _ IH].
    + constructor.
    + apply step_preserves_nonempty, IH.
  - apply step_preserves_nonempty.
  - intros now s c Hd Ha Hb.
    eexists. split; [apply (handleMouseUp_active now s c c Hd Ha Hb)|].
    simpl. rewrite !Z.min_id, !Z.max_id. repeat split; reflexivity.
Qed.

(** C10.  During an active gesture the previewed cells are exactly the cells
    the area committed on release covers: [isInSelection] at (r, c) holds
    iff rowStart <= r < rowEnd and colStart <= c < colEnd for the area that
    the release handler appends from the same two cells, which is also the
    test [getGridAreaColor] applies to that area. *)
Theorem isInSelection_iff_committed_area
    (now : Z) (s : State) (a b : Cell) :
  isDragging s = true -> startCell s = Some a -> currentCell s = Some b ->
  exists area : GridArea,
    gridAreas (dispatch (handleMouseUp now) s) = gridAreas s ++ [area]
    /\ forall r c : Z,
         (isInSelection s r c = true
          <-> (rowStart area <= r < rowEnd area
               /\ colStart area <= c < colEnd area))
         /\ isInSelection s r c = covers r c area.
Proof.
  intros Hd Ha Hb.
  eexists. split; [apply (handleMouseUp_active now s a b Hd Ha Hb)|].
  intros r c. unfold isInSelection, covers. rewrite Hd, Ha, Hb.
  destruct a as [ar ac], b as [br bc]. simpl.
  split.
  - rewrite !andb_true_iff, !Z.geb_le, !Z.leb_le. lia.
  - rewrite !Z.geb_leb.
    replace (r <? Z.max ar br + 1) with (r <=? Z.max ar br)
      by (destruct (Z.leb_spec r (Z.max ar br)),
            (Z.ltb_spec r (Z.max ar br + 1)); try reflexivity; lia).
    replace (c <? Z.max ac bc + 1) with (c <=? Z.max ac bc)
      by (destruct (Z.leb_spec c (Z.max ac bc)),
            (Z.ltb_spec c (Z.max ac bc + 1)); try reflexivity; lia).
    reflexivity.
Qed.

(** ** Palette colours *)

Lemma AREA_COLORS_lookup_mod (n : nat) :
  AREA_COLORS !! (n mod length AREA_COLORS)%nat
  = Some (AREA_COLORS !!! (n mod length AREA_COLORS)%nat).
Proof.
  apply list_lookup_lookup_total_lt.
  apply Nat.mod_upper_bound. discriminate.
Qed.


Lemma handleMouseUp_preserves_palette (now : Z) (s : State) :
  palette_colored (gridAreas s) ->
  palette_colored (gridAreas (dispatch (handleMouseUp now) s)).
Proof.
  intros H. rewrite dispatch_handleMouseUp. simpl.
  destruct (isDragging s), (startCell s) as [a|], (currentCell s) as [b|];
    try exact H.
  intros N x [Hx|[Hlen Hx]]%lookup_app_Some; [apply (H N x Hx)|].
  apply list_lookup_singleton_Some in Hx as [HN <-]. simpl.
  assert (N = length (gridAreas s)) as -> by lia.
  apply (AREA_COLORS_lookup_mod (length (gridAreas s))).
Qed.

Lemma step_preserves_palette (s : State) (e : Event) :
  palette_colored (gridAreas s) -> palette_colored (gridAreas (step s e)).
Proof.
  intros H. rewrite step_gridAreas.
  destruct e; try exact H; try (apply handleMouseUp_preserves_palette, H).
  intros N a HN. discriminate.
Qed.

Lemma reachable_palette_colored (s : State) :
  reachable s -> palette_colored (gridAreas s).
Proof.
  intros Hs. induction Hs as [|s e _ IH].
  - intros N a HN. discriminate.
  - apply step_preserves_palette, IH.
Qed.

(** C5.  In every reachable state the area at position N of the registry
    (counting from 0) carries the preview palette colour of index N mod 8, so
    the ninth area carries the colour of the first; and a commit into a
    registry that holds N areas appends an area with the palette colour of
    index N mod 8. *)
Theorem area_colors_cycle :
  (forall (s : State) (N : nat) (a : GridArea),
     reachable s -> gridAreas s !! N = Some a ->
     AREA_COLORS !! (N mod 8)%nat = Some (color a))
  /\ (forall (s : State) (a1 a9 : GridArea),
        reachable s ->
        gridAreas s !! 0%nat = Some a1 -> gridAreas s !! 8%nat = Some a9 ->
        color a9 = color a1)
  /\ (forall (now : Z) (s : State) (a b : Cell),
        isDragging s = true -> startCell s = Some a -> currentCell s = Some b ->
        exists area : GridArea,
          gridAreas (dispatch (handleMouseUp now) s) = gridAreas s ++ [area]
          /\ AREA_COLORS !! (length (gridAreas s) mod 8)%nat
             = Some (color area)).
Proof.
  split; [|split].
  - intros s N a Hs HN. apply (reachable_palette_colored s Hs N a HN).
  - intros s a1 a9 Hs H1 H9.
    pose proof (reachable_palette_colored s Hs 0%nat a1 H1) as E1.
    pose proof (reachable_palette_colored s Hs 8%nat a9 H9) as E9.
    change (8 mod 8)%nat with (0 mod 8)%nat in E9.
    congruence.
  - intros now s a b Hd Ha Hb.
    eexists. split; [apply (handleMouseUp_active now s a b Hd Ha Hb)|].
    apply (AREA_COLORS_lookup_mod (length (gridAreas s))).
Qed.

(** ** Pointer leave *)

(** C3, as the code has it.  Pointer leave runs the release handler: the
    gesture is cleared exactly as on a release, and an active gesture is
    committed exactly as a release commits it, so the registry grows by the
    normalized area; the registry is unchanged when no gesture is active. *)
Theorem onMouseLeave_commits_like_release (now : Z) (s : State) :
  dispatch (onMouseLeave now) s = dispatch (onMouseUp now) s
  /\ isDragging (dispatch (onMouseLeave now) s) = false
  /\ startCell (dispatch (onMouseLeave now) s) = None
  /\ currentCell (dispatch (onMouseLeave now) s) = None
  /\ (forall a b : Cell,
        isDragging s = true -> startCell s = Some a -> currentCell s = Some b ->
        exists area : GridArea,
          gridAreas (dispatch (onMouseLeave now) s) = gridAreas s ++ [area]
          /\ rowStart area = Z.min (row a) (row b)
          /\ rowEnd area = Z.max (row a) (row b) + 1
          /\ colStart area = Z.min (col a) (col b)
          /\ colEnd area = Z.max (col a) (col b) + 1)
  /\ (isDragging s = false \/ startCell s = None \/ currentCell s = None ->
      gridAreas (dispatch (onMouseLeave now) s) = gridAreas s).
Proof.
  unfold onMouseLeave, onMouseUp.
  split; [reflexivity|].
  rewrite dispatch_handleMouseUp at 1 2 3. simpl.
  repeat (split; [reflexivity|]).
  split.
  - intros a b Hd Ha Hb.
    eexists. split; [apply (handleMouseUp_active now s a b Hd Ha Hb)|].
    simpl. repeat split; reflexivity.
  - apply handleMouseUp_idle.
Qed.

(** ** Purity of the generators *)

(** C6.  Each generator is a function of the configuration and the registry
    alone: two calls in states that agree on these two, whatever the gesture
    and the selected syntax are, give the same strings. *)
Theorem generators_read_config_and_areas_only (s1 s2 : State) :
  gridConfig s1 = gridConfig s2 -> gridAreas s1 = gridAreas s2 ->
  generateTailwindCode s1 = generateTailwindCode s2
  /\ css (generateCSSCode s1) = css (generateCSSCode s2)
  /\ html (generateCSSCode s1) = html (generateCSSCode s2).
Proof.
  intros Hc Ha.
  unfold generateTailwindCode, generateCSSCode. simpl.
  rewrite Hc, Ha. repeat split; reflexivity.
Qed.

(** ** [parseInt] reads back what [Number::toString] prints *)

Lemma digitValue_pretty_N_char (d : N) :
  (d < 10)%N -> digitValue (pretty_N_char d) = Some (Z.of_N d).
Proof.
  intros Hd.
  assert (d = 0 \/ d = 1 \/ d = 2 \/ d = 3 \/ d = 4 \/ d = 5 \/ d = 6
          \/ d = 7 \/ d = 8 \/ d = 9)%N as H by lia.
  repeat (destruct H as [->|H]; [reflexivity|]). subst d. reflexivity.
Qed.

Lemma parseDigits_pretty_N_go (x : N) (s : string) :
  (0 < x)%N ->
  parseDigits 10 (pretty_N_go x s) None = parseDigits 10 s (Some (Z.of_N x)).
Proof.
  revert s. induction (N.lt_wf_0 x) as [x _ IH]; intros s Hx.
  rewrite pretty_N_go_step by exact Hx.
  pose proof (N.div_mod x 10 ltac:(discriminate)) as Hx10.
  pose proof (N.mod_lt x 10 ltac:(discriminate)) as Hd.
  assert (Hdz : (Z.of_N (N.modulo x 10) <? 10) = true) by (apply Z.ltb_lt; lia).
  destruct (decide (N.div x 10 = 0%N)) as [E|E].
  - rewrite E, pretty_N_go_0. simpl.
    rewrite (digitValue_pretty_N_char _ Hd), Hdz.
    f_equal. f_equal. rewrite E in Hx10.
    generalize dependent (N.modulo x 10). intros m; intros. lia.
  - rewrite IH; [|apply N.div_lt; lia|lia]. simpl.
    rewrite (digitValue_pretty_N_char _ Hd), Hdz.
    f_equal. f_equal.
    generalize dependent (N.modulo x 10). intros m.
    generalize dependent (N.div x 10). intros q; intros. lia.
Qed.

Lemma pretty_N_go_head (x : N) (s : string) :
  (0 < x)%N ->
  exists (c : ascii) (r : string),
    pretty_N_go x s = String c r /\ isNonZeroDigit c = true.
Proof.
  revert s. induction (N.lt_wf_0 x) as [x _ IH]; intros s Hx.
  rewrite pretty_N_go_step by exact Hx.
  pose proof (N.div_mod x 10 ltac:(discriminate)) as Hx10.
  pose proof (N.mod_lt x 10 ltac:(discriminate)) as Hd.
  destruct (decide (N.div x 10 = 0%N)) as [E|E].
  - rewrite E, pretty_N_go_0. eexists _, _. split; [reflexivity|].
    rewrite E in Hx10.
    generalize dependent (N.modulo x 10). intros m Hm Hlt.
    assert (m = 1 \/ m = 2 \/ m = 3 \/ m = 4 \/ m = 5 \/ m = 6
            \/ m = 7 \/ m = 8 \/ m = 9)%N as H' by lia.
    repeat (destruct H' as [->|H']; [reflexivity|]). rewrite H'. reflexivity.
  - apply IH; [apply N.div_lt; lia|lia].
Qed.

Lemma parseInt_digit_head (c : ascii) (r : string) :
  isNonZeroDigit c = true ->
  parseInt (String c r)
  = match parseDigits 10 (String c r) None with
    | Some m => Some (1 * m)
    | None => None
    end
  /\ parseInt (String "-" (String c r))
     = match parseDigits 10 (String c r) None with
       | Some m => Some (-1 * m)
       | None => None
       end.
Proof.
  destruct c as [[] [] [] [] [] [] [] []]; try discriminate;
    intros _; split; reflexivity.
Qed.

Lemma parseInt_Number_toString (n : Z) :
  safe_integer n -> parseInt (Number_toString n) = Some n.
Proof.
  intros _.
  unfold Number_toString, pretty, pretty_Z.
  destruct n as [|p|p]; [reflexivity| |].
  - unfold pretty, pretty_positive, pretty, pretty_N.
    case_decide; [discriminate|].
    destruct (pretty_N_go_head (Npos p) EmptyString ltac:(lia))
      as (c & r & E & Hc).
    rewrite E. rewrite (proj1 (parseInt_digit_head c r Hc)).
    rewrite <- E, parseDigits_pretty_N_go by lia. simpl.
    reflexivity.
  - unfold pretty, pretty_positive, pretty, pretty_N.
    case_decide; [discriminate|].
    destruct (pretty_N_go_head (Npos p) EmptyString ltac:(lia))
      as (c & r & E & Hc).
    rewrite E. change ("-" +:+ String c r) with (String "-" (String c r)).
    rewrite (proj2 (parseInt_digit_head c r Hc)).
    rewrite <- E, parseDigits_pretty_N_go by lia. simpl.
    reflexivity.
Qed.

(** Input that does not start, after white space, with a sign or a decimal
    digit has no integer prefix. *)
Lemma parseInt_non_numeric (c : ascii) (r : string) :
  isStrWhiteSpaceChar c = false -> isDecimalDigit c = false ->
  c <> "-"%char -> c <> "+"%char ->
  parseInt (String c r) = None.
Proof.
  destruct c as [[] [] [] [] [] [] [] []];
    intros Hw Hd Hm Hp; try discriminate; try reflexivity;
    try (exfalso; apply Hm; reflexivity);
    try (exfalso; apply Hp; reflexivity).
Qed.

(** ** Numeric fields *)

Lemma or_default_cases (n : option Z) (d : Z) :
  (n = None \/ n = Some 0 -> or_default n d = d)
  /\ (forall v : Z, n = Some v -> v <> 0 -> or_default n d = v).
Proof.
  split.
  - intros [->| ->]; reflexivity.
  - intros v -> Hv. simpl. destruct (Z.eqb_spec v 0); [contradiction|].
    reflexivity.
Qed.

(** C7, as the code has it.  Text without an integer prefix, for which
    [parseInt] gives [NaN], is coerced to the default of the field - 1 for
    columns and rows, 0 for the gaps - and so is text that parses to 0;
    columns and rows are never 0.  Out-of-range input is not coerced: a
    non-zero integer that [parseInt] reads, of magnitude below 2^53, is
    stored as it is, in range or not; the stored value lies in the range of
    the field whenever the integer read does.  The decimal numeral of an
    integer below 2^53 in magnitude parses to it, and text that is empty or
    starts with a character other than white space, a sign or a decimal
    digit has no integer prefix. *)
Theorem numeric_fields_store_parsed_or_default (value : string) (s : State) :
  (parseInt value = None \/ parseInt value = Some 0 ->
     columns (gridConfig (dispatch (changeColumns value) s)) = 1
     /\ rows (gridConfig (dispatch (changeRows value) s)) = 1
     /\ columnGap (gridConfig (dispatch (changeColumnGap value) s)) = 0
     /\ rowGap (gridConfig (dispatch (changeRowGap value) s)) = 0)
  /\ (forall n : Z,
        parseInt value = Some n -> n <> 0 -> safe_integer n ->
        columns (gridConfig (dispatch (changeColumns value) s)) = n
        /\ rows (gridConfig (dispatch (changeRows value) s)) = n
        /\ columnGap (gridConfig (dispatch (changeColumnGap value) s)) = n
        /\ rowGap (gridConfig (dispatch (changeRowGap value) s)) = n)
  /\ (forall n : Z,
        parseInt value = Some n ->
        (1 <= n <= 12 ->
         1 <= columns (gridConfig (dispatch (changeColumns value) s)) <= 12
         /\ 1 <= rows (gridConfig (dispatch (changeRows value) s)) <= 12)
        /\ (0 <= n <= 16 ->
            0 <= columnGap (gridConfig (dispatch (changeColumnGap value) s))
              <= 16
            /\ 0 <= rowGap (gridConfig (dispatch (changeRowGap value) s))
                 <= 16))
  /\ columns (gridConfig (dispatch (changeColumns value) s)) <> 0
  /\ rows (gridConfig (dispatch (changeRows value) s)) <> 0
  /\ (forall n : Z, safe_integer n -> parseInt (Number_toString n) = Some n)
  /\ (value = EmptyString
      \/ (exists (c : ascii) (r : string),
            value = String c r
            /\ isStrWhiteSpaceChar c = false /\ isDecimalDigit c = false
            /\ c <> "-"%char /\ c <> "+"%char) ->
      parseInt value = None).
Proof.
  change (columns (gridConfig (dispatch (changeColumns value) s)))
    with (or_default (parseInt value) 1).
  change (rows (gridConfig (dispatch (changeRows value) s)))
    with (or_default (parseInt value) 1).
  change (columnGap (gridConfig (dispatch (changeColumnGap value) s)))
    with (or_default (parseInt value) 0).
  change (rowGap (gridConfig (dispatch (changeRowGap value) s)))
    with (or_default (parseInt value) 0).
  split; [|split; [|split; [|split; [|split; [|split]]]]].
  - intros H.
    rewrite (proj1 (or_default_cases (parseInt value) 1) H).
    rewrite (proj1 (or_default_cases (parseInt value) 0) H).
    repeat split; reflexivity.
  - intros n Hn Hn0 _.
    rewrite (proj2 (or_default_cases (parseInt value) 1) n Hn Hn0).
    rewrite (proj2 (or_default_cases (parseInt value) 0) n Hn Hn0).
    repeat split; reflexivity.
  - intros n ->. unfold or_default.
    destruct (Z.eqb_spec n 0); split; intros; lia.
  - unfold or_default. destruct (parseInt value) as [v|]; [|discriminate].
    destruct (Z.eqb_spec v 0); [discriminate|assumption].
  - unfold or_default. destruct (parseInt value) as [v|]; [|discriminate].
    destruct (Z.eqb_spec v 0); [discriminate|assumption].
  - apply parseInt_Number_toString.
  - intros [->|(c & r & -> & Hw & Hd & Hm & Hp)]; [reflexivity|].
    apply parseInt_non_numeric; assumption.
Qed.

(** ** The secondary syntax *)


(** ** The gap numeral denotes a quarter of the row gap *)

Lemma pretty_N_go_app (x : N) (s t : string) :
  pretty_N_go x s +:+ t = pretty_N_go x (s +:+ t).
Proof.
  revert s. induction (N.lt_wf_0 x) as [x _ IH]; intros s.
  destruct (decide (x = 0%N)) as [->|Hx]; [reflexivity|].
  rewrite (pretty_N_go_step x s), (pretty_N_go_step x (s +:+ t)) by lia.
  rewrite IH by (apply N.div_lt; lia). reflexivity.
Qed.







(** * The theorems at sample inputs *)

Lemma reachable_run (s : State) (es : list Event) :
  reachable s -> reachable (run s es).
Proof.
  revert s. induction es as [|e es IH]; intros s Hs; [exact Hs|].
  apply (IH (step s e)). apply reach_step, Hs.
Qed.

(** The scenario state has the three lines of the specification, reads
    neither the row gap nor anything but the configuration and the registry,
    and its second line is the child line of its area. *)
Lemma generateTailwindCode_lines_scenario :
  lines (generateTailwindCode scenario_state)
  = [ "<div class=" +:+ dq +:+ "grid grid-cols-4 grid-rows-3 gap-4" +:+ dq
      +:+ ">";
      "  <div class=" +:+ dq
      +:+ "row-start-1 row-span-2 col-start-1 col-span-2 "
      +:+ "bg-gradient-to-br from-blue-500 to-blue-600 rounded-xl shadow-lg"
      +:+ dq +:+ "></div>";
      "</div>" ]
  /\ generateTailwindCode
       {| gridConfig := {| columns := 4; rows := 3; columnGap := 4;
                           rowGap := 11 |};
          gridAreas := gridAreas scenario_state;
          isDragging := true;
          startCell := None;
          currentCell := None;
          showTailwind := false |}
     = generateTailwindCode scenario_state
  /\ generateTailwindCode scenario_state
     = "<div class=" +:+ dq +:+ "grid grid-cols-4 grid-rows-3 gap-4"
       +:+ dq +:+ ">" +:+ nl
       +:+ "  <div class=" +:+ dq
       +:+ "row-start-1 row-span-2 col-start-1 col-span-2 "
       +:+ "bg-gradient-to-br from-blue-500 to-blue-600"
       +:+ " rounded-xl shadow-lg" +:+ dq +:+ "></div>" +:+ nl
       +:+ "</div>".
Proof.
  destruct (generateTailwindCode_lines scenario_state)
    as (_ & Hframe & Hlines & Hscenario).
  split; [|split].
  - apply (proj1 (Hlines ltac:(repeat constructor))).
  - apply Hframe; reflexivity.
  - apply (Hscenario "area-0"
             "bg-gradient-to-br from-blue-500 to-blue-600"); reflexivity.
Defined.

(** The drag from (3, 1) up to (1, 1) commits the area 1, 4, 1, 2. *)
Lemma handleMouseUp_commits_normalized_drag_up :
  exists area : GridArea,
    gridAreas (dispatch (handleMouseUp 0) drag_up_state) = [area]
    /\ rowStart area = 1 /\ rowEnd area = 4
    /\ colStart area = 1 /\ colEnd area = 2.
Proof.
  destruct (proj1 handleMouseUp_commits_normalized 0 drag_up_state 3 1 1 1
              eq_refl eq_refl eq_refl)
    as (area & H & Hrs & Hre & Hcs & Hce & _).
  exists area. repeat split; assumption.
Defined.

(** A release in the initial state, where no gesture is active. *)
Lemma handleMouseUp_clears_gesture_idle :
  isDragging (dispatch (handleMouseUp 0) initialState) = false
  /\ gridAreas (dispatch (handleMouseUp 0) initialState) = [].
Proof.
  destruct (handleMouseUp_clears_gesture 0 initialState)
    as (Hd & _ & _ & _ & _ & Hareas).
  split; [exact Hd|].
  apply Hareas. left. reflexivity.
Defined.

(** After one gesture the registry holds one non-empty area, a further
    release keeps it so, and a click on (2, 2) commits a 1 by 1 area. *)
Lemma areas_never_degenerate_one_area :
  Forall nonempty_area (gridAreas one_area_state)
  /\ Forall nonempty_area (gridAreas (step one_area_state (MouseUp 1)))
  /\ exists area : GridArea,
       gridAreas (dispatch (handleMouseUp 0) press_state) = [area]
       /\ rowStart area = 2 /\ rowEnd area = 3
       /\ colStart area = 2 /\ colEnd area = 3.
Proof.
  destruct areas_never_degenerate as (Hreach & Hstep & Hclick).
  assert (Hone : Forall nonempty_area (gridAreas one_area_state)).
  { apply Hreach. apply reachable_run, reach_init. }
  split; [exact Hone|]. split; [apply Hstep, Hone|].
  destruct (Hclick 0 press_state {| row := 2; col := 2 |}
              eq_refl eq_refl eq_refl)
    as (area & H & Hrs & Hre & Hcs & Hce).
  exists area. rewrite Hre, Hce, Hrs, Hcs. repeat split; assumption.
Defined.

(** During the drag from (3, 1) up to (1, 1) the cell (2, 1) is previewed and
    the committed area covers it. *)
Lemma isInSelection_iff_committed_area_drag_up :
  exists area : GridArea,
    gridAreas (dispatch (handleMouseUp 0) drag_up_state) = [area]
    /\ isInSelection drag_up_state 2 1 = covers 2 1 area.
Proof.
  destruct (isInSelection_iff_committed_area 0 drag_up_state
              {| row := 3; col := 1 |} {| row := 1; col := 1 |}
              eq_refl eq_refl eq_refl)
    as (area & H & Hcells).
  exists area. split; [exact H|]. apply (Hcells 2 1).
Defined.

(** After nine clicks the ninth area has the colour of the first, which is
    the first palette colour; a tenth commit takes the second. *)
Lemma area_colors_cycle_nine :
  (exists a1 a9 : GridArea,
     gridAreas nine_areas_state !! 0%nat = Some a1
     /\ gridAreas nine_areas_state !! 8%nat = Some a9
     /\ color a9 = color a1
     /\ AREA_COLORS !! 0%nat = Some (color a1))
  /\ exists area : GridArea,
       gridAreas (dispatch (handleMouseUp 0)
                    (dispatch (handleMouseDown 1 1) nine_areas_state))
       = gridAreas nine_areas_state ++ [area]
       /\ AREA_COLORS !! 1%nat = Some (color area).
Proof.
  destruct area_colors_cycle as (Hinv & Hninth & Hcommit).
  assert (Hreach : reachable nine_areas_state)
    by apply reachable_run, reach_init.
  split.
  - eexists _, _.
    split; [reflexivity|]. split; [reflexivity|]. split.
    + apply (Hninth nine_areas_state _ _ Hreach eq_refl eq_refl).
    + apply (Hinv nine_areas_state 0%nat _ Hreach eq_refl).
  - apply (Hcommit 0 (dispatch (handleMouseDown 1 1) nine_areas_state)
             {| row := 1; col := 1 |} {| row := 1; col := 1 |}
             eq_refl eq_refl eq_refl).
Defined.

(** Pointer leave during a press commits the pressed cell. *)
Lemma onMouseLeave_commits_like_release_press :
  exists area : GridArea,
    gridAreas (dispatch (onMouseLeave 0) press_state) = [area]
    /\ rowStart area = 2 /\ rowEnd area = 3
    /\ colStart area = 2 /\ colEnd area = 3
    /\ gridAreas (dispatch (onMouseLeave 0) initialState) = [].
Proof.
  destruct (onMouseLeave_commits_like_release 0 press_state)
    as (_ & _ & _ & _ & Hactive & _).
  destruct (onMouseLeave_commits_like_release 0 initialState)
    as (_ & _ & _ & _ & _ & Hidle).
  destruct (Hactive {| row := 2; col := 2 |} {| row := 2; col := 2 |}
              eq_refl eq_refl eq_refl)
    as (area & H & Hrs & Hre & Hcs & Hce).
  exists area.
  split; [exact H|]. split; [exact Hrs|]. split; [exact Hre|].
  split; [exact Hcs|]. split; [exact Hce|].
  apply Hidle. left. reflexivity.
Defined.

(** C3 as stated fails: pointer leave during an active gesture changes the
    registry. *)
Lemma onMouseLeave_changes_registry :
  isDragging press_state = true
  /\ gridAreas (dispatch (onMouseLeave 0) press_state)
     <> gridAreas press_state.
Proof. split; [reflexivity|]. intros H. vm_compute in H. discriminate. Qed.

(** The generators give the same text during a press as before it. *)
Lemma generators_read_config_and_areas_only_press :
  generateTailwindCode initialState = generateTailwindCode press_state
  /\ css (generateCSSCode initialState) = css (generateCSSCode press_state)
  /\ html (generateCSSCode initialState) = html (generateCSSCode press_state).
Proof.
  apply (generators_read_config_and_areas_only initialState press_state);
    reflexivity.
Defined.

(** Letters and the empty text give the defaults, [13] and [-5] are stored
    as they are. *)
Lemma numeric_fields_store_parsed_or_default_samples :
  columns (gridConfig (dispatch (changeColumns "abc") initialState)) = 1
  /\ rowGap (gridConfig (dispatch (changeRowGap "abc") initialState)) = 0
  /\ columns (gridConfig (dispatch (changeColumns "13") initialState)) = 13
  /\ rowGap (gridConfig (dispatch (changeRowGap "-5") initialState)) = -5
  /\ parseInt EmptyString = None.
Proof.
  destruct (numeric_fields_store_parsed_or_default "abc" initialState)
    as (Hdef & _).
  destruct (numeric_fields_store_parsed_or_default "13" initialState)
    as (_ & H13 & _).
  destruct (numeric_fields_store_parsed_or_default "-5" initialState)
    as (_ & H5 & _).
  destruct (numeric_fields_store_parsed_or_default EmptyString initialState)
    as (_ & _ & _ & _ & _ & _ & Hempty).
  destruct (Hdef (or_introl eq_refl)) as (Hc & _ & _ & Hg).
  destruct (H13 13 eq_refl ltac:(discriminate) eq_refl) as (Hc13 & _).
  destruct (H5 (-5) eq_refl ltac:(discriminate) eq_refl)
    as (_ & _ & _ & Hg5).
  split; [exact Hc|]. split; [exact Hg|]. split; [exact Hc13|].
  split; [exact Hg5|].
  apply Hempty. left. reflexivity.
Defined.

(** C7 as stated fails: [13] in the columns field and [99] in the row gap
    field are stored as they are, outside the ranges and not as the
    defaults. *)
Lemma changeColumns_stores_out_of_range :
  columns (gridConfig (dispatch (changeColumns "13") initialState)) = 13
  /\ ~ (1 <= columns (gridConfig (dispatch (changeColumns "13") initialState))
        <= 12)
  /\ rowGap (gridConfig (dispatch (changeRowGap "99") initialState)) = 99
  /\ ~ (0 <= rowGap (gridConfig (dispatch (changeRowGap "99") initialState))
        <= 16).
Proof.
  split; [reflexivity|]. split; [vm_compute; intros [_ H]; apply H; reflexivity|].
  split; [reflexivity|]. vm_compute. intros [_ H]. apply H. reflexivity.
Qed.


(** * Further properties of the component *)

(** ** Gestures *)

Lemma run_app (s : State) (es1 es2 : list Event) :
  run s (es1 ++ es2) = run (run s es1) es2.
Proof. apply fold_left_app. Qed.

Lemma last_cons_default {A : Type} (l : list A) (x b : A) :
  List.last (x :: l) b = List.last l x.
Proof.
  revert x b. induction l as [|c l IH]; intros x b; [reflexivity|].
  change (List.last (x :: c :: l) b) with (List.last (c :: l) b).
  rewrite (IH c b), (IH c x). reflexivity.
Qed.

(** While dragging, a path of moves keeps the start cell and the registry and
    leaves the last cell of the path as the current cell. *)
Lemma run_moves (s : State) (a b : Cell) (path : list Cell) :
  isDragging s = true -> startCell s = Some a -> currentCell s = Some b ->
  run s (moves path)
  = {| gridConfig := gridConfig s;
       gridAreas := gridAreas s;
       isDragging := true;
       startCell := Some a;
       currentCell := Some (List.last path b);
       showTailwind := showTailwind s |}.
Proof.
  revert s b. induction path as [|x path IH]; intros s b Hd Ha Hb.
  - destruct s; simpl in *; subst; reflexivity.
  - destruct x as [xr xc].
    change (run s (moves (mkCell xr xc :: path)))
      with (run (step s (MouseEnter xr xc)) (moves path)).
    unfold step, handlerOf. rewrite dispatch_handleMouseEnter, Hd, Ha.
    rewrite (IH _ (mkCell xr xc)); [|reflexivity..].
    rewrite last_cons_default. reflexivity.
Qed.

Lemma run_gesture (now : Z) (s : State) (r c : Z) (path : list Cell) :
  run s (MouseDown r c :: moves path ++ [MouseUp now])
  = {| gridConfig := gridConfig s;
       gridAreas :=
         gridAreas s ++ [ {|
           id := "area-" +:+ Number_toString now;
           rowStart := Z.min r (row (List.last path (mkCell r c)));
           rowEnd := Z.max r (row (List.last path (mkCell r c))) + 1;
           colStart := Z.min c (col (List.last path (mkCell r c)));
           colEnd := Z.max c (col (List.last path (mkCell r c))) + 1;
           color := AREA_COLORS !!! (length (gridAreas s) mod 8)%nat
         |} ];
       isDragging := false;
       startCell := None;
       currentCell := None;
       showTailwind := showTailwind s |}.
Proof.
  change (run s (MouseDown r c :: moves path ++ [MouseUp now]))
    with (run (step s (MouseDown r c)) (moves path ++ [MouseUp now])).
  rewrite run_app.
  rewrite (run_moves _ (mkCell r c) (mkCell r c) path);
    [|reflexivity..].
  change (run ?s' [MouseUp now]) with (dispatch (handleMouseUp now) s').
  rewrite dispatch_handleMouseUp. reflexivity.
Qed.

(** X1.  A whole gesture - a press, any path of moves, a release - appends
    exactly one area: the rectangle spanned by the pressed cell and the last
    cell of the path (the pressed cell itself when the pointer did not
    move), whatever cells the path visited in between and whatever gesture
    state the press found; it takes the next palette colour and leaves the
    gesture cleared. *)
Theorem gesture_commits_press_and_last_cell
    (now : Z) (s : State) (r c : Z) (path : list Cell) :
  run s (MouseDown r c :: moves path ++ [MouseUp now])
  = {| gridConfig := gridConfig s;
       gridAreas :=
         gridAreas s ++ [ {|
           id := "area-" +:+ Number_toString now;
           rowStart := Z.min r (row (List.last path (mkCell r c)));
           rowEnd := Z.max r (row (List.last path (mkCell r c))) + 1;
           colStart := Z.min c (col (List.last path (mkCell r c)));
           colEnd := Z.max c (col (List.last path (mkCell r c))) + 1;
           color := AREA_COLORS !!! (length (gridAreas s) mod 8)%nat
         |} ];
       isDragging := false;
       startCell := None;
       currentCell := None;
       showTailwind := showTailwind s |}.
Proof. apply run_gesture. Qed.

(** ** The gesture state of reachable states *)

Lemma step_gesture_consistent (s : State) (e : Event) :
  gesture_consistent s -> gesture_consistent (step s e).
Proof.
  intros H. destruct e; try exact H.
  - left. repeat split; eexists; reflexivity.
  - unfold step, handlerOf. rewrite dispatch_handleMouseEnter.
    destruct H as [(Hd & Ha & Hb)|(Hd & Ha & Hb)].
    + left. simpl. rewrite Hd. repeat split; [exact Ha|eexists; reflexivity].
    + right. simpl. rewrite Hd. repeat split; assumption.
  - right. unfold step, handlerOf, onMouseUp. rewrite dispatch_handleMouseUp.
    repeat split.
  - right. unfold step, handlerOf, onMouseLeave.
    rewrite dispatch_handleMouseUp. repeat split.
Qed.

(** X2.  In every reachable state the start cell and the current cell are
    both present while dragging and both absent otherwise; so in a reachable
    state a release while dragging always commits: the registry grows by
    exactly one area. *)
Theorem reachable_gesture_consistent (s : State) :
  reachable s ->
  gesture_consistent s
  /\ (isDragging s = true ->
      forall now : Z,
        length (gridAreas (dispatch (handleMouseUp now) s))
        = S (length (gridAreas s))).
Proof.
  intros Hs.
  assert (H : gesture_consistent s).
  { induction Hs as [|s e _ IH]; [right; repeat split|].
    apply step_gesture_consistent, IH. }
  split; [exact H|].
  intros Hd now.
  destruct H as [(_ & [a Ha] & [b Hb])|(Hd' & _)]; [|congruence].
  rewrite (handleMouseUp_active now s a b Hd Ha Hb).
  rewrite length_app. simpl. lia.
Qed.

Lemma reachable_gesture_consistent_drag_up :
  gesture_consistent drag_up_state
  /\ length (gridAreas (dispatch (handleMouseUp 0) drag_up_state)) = 1%nat.
Proof.
  destruct (reachable_gesture_consistent drag_up_state
              (reachable_run initialState _ reach_init)) as (H & Hlen).
  split; [exact H|]. apply (Hlen eq_refl 0).
Defined.

(** ** The registry only grows, except by the reset button *)

Lemma step_registry (s : State) (e : Event) :
  e <> ResetClick ->
  gridAreas (step s e) = gridAreas s
  \/ exists a : GridArea, gridAreas (step s e) = gridAreas s ++ [a].
Proof.
  intros He. rewrite step_gridAreas.
  destruct e; try (left; reflexivity); try contradiction.
  - rewrite dispatch_handleMouseUp. simpl.
    destruct (isDragging s), (startCell s), (currentCell s);
      try (left; reflexivity).
    right. eexists. reflexivity.
  - rewrite dispatch_handleMouseUp. simpl.
    destruct (isDragging s), (startCell s), (currentCell s);
      try (left; reflexivity).
    right. eexists. reflexivity.
Qed.

(** X3.  No event but the reset button removes, reorders or rewrites an
    area: one event keeps the registry or appends one area to it, and over
    any trace without a reset the old registry is a prefix of the new one,
    which has grown by at most the number of releases and pointer leaves of
    the trace. *)
Theorem registry_append_only (s : State) (es : list Event) :
  ~ In ResetClick es ->
  gridAreas s `prefix_of` gridAreas (run s es)
  /\ (length (gridAreas (run s es))
      <= length (gridAreas s) + length (release_times es))%nat
  /\ forall (i : nat) (a : GridArea),
       gridAreas s !! i = Some a -> gridAreas (run s es) !! i = Some a.
Proof.
  intros Hes.
  assert (H : gridAreas s `prefix_of` gridAreas (run s es)
              /\ (length (gridAreas (run s es))
                  <= length (gridAreas s) + length (release_times es))%nat).
  { revert s. induction es as [|e es IH]; intros s.
    - split; [reflexivity|simpl; lia].
    - assert (He : e <> ResetClick) by (intros ->; apply Hes; left; reflexivity).
      assert (Hes' : ~ In ResetClick es) by (intros H; apply Hes; right; exact H).
      destruct (IH Hes' (step s e)) as (Hp & Hl).
      change (run s (e :: es)) with (run (step s e) es).
      assert (Hstep : gridAreas s `prefix_of` gridAreas (step s e)
                      /\ (length (gridAreas (step s e))
                          <= length (gridAreas s)
                             + length (release_times [e]))%nat).
      { rewrite step_gridAreas.
        destruct e; try (split; [reflexivity|simpl; lia]); try contradiction.
        - rewrite dispatch_handleMouseUp. simpl.
          destruct (isDragging s), (startCell s), (currentCell s);
            try (split; [reflexivity|simpl; lia]).
          split; [eexists; reflexivity|rewrite length_app; simpl; lia].
        - rewrite dispatch_handleMouseUp. simpl.
          destruct (isDragging s), (startCell s), (currentCell s);
            try (split; [reflexivity|simpl; lia]).
          split; [eexists; reflexivity|rewrite length_app; simpl; lia]. }
      destruct Hstep as (Hp1 & Hl1).
      split; [etransitivity; eassumption|].
      assert (Hcons : release_times (e :: es)
                      = release_times [e] ++ release_times es).
      { unfold release_times. simpl. rewrite app_nil_r. reflexivity. }
      rewrite Hcons, length_app. lia. }
  destruct H as (Hp & Hl). split; [exact Hp|]. split; [exact Hl|].
  intros i a Hi. destruct Hp as [k ->]. apply lookup_app_l_Some, Hi.
Qed.

Lemma registry_append_only_one_area :
  gridAreas one_area_state
    `prefix_of` gridAreas (run one_area_state
                             [MouseDown 2 2; ColumnsChange "2"; MouseUp 5])
  /\ (length (gridAreas (run one_area_state
                           [MouseDown 2 2; ColumnsChange "2"; MouseUp 5]))
      <= 2)%nat.
Proof.
  destruct (registry_append_only one_area_state
              [MouseDown 2 2; ColumnsChange "2"; MouseUp 5]) as (Hp & Hl & _).
  - intros [H|[H|[H|[]]]]; discriminate.
  - split; [exact Hp|exact Hl].
Defined.

(** ** The reset button *)

(** X4.  The reset button empties the registry and touches nothing else.
    After it the primary syntax is the parent line, one empty line and the
    closing tag, the style sheet is the container rule alone, the markup is
    an empty container, no cell has an area colour, and the next gesture
    commits a single area in the first palette colour. *)
Theorem reset_clears_areas_and_output (s : State) :
  step s ResetClick
  = {| gridConfig := gridConfig s;
       gridAreas := [];
       isDragging := isDragging s;
       startCell := startCell s;
       currentCell := currentCell s;
       showTailwind := showTailwind s |}
  /\ lines (generateTailwindCode (step s ResetClick))
     = [parent_line (gridConfig s); EmptyString; "</div>"]
  /\ css (generateCSSCode (step s ResetClick))
     = spec_container_rule (gridConfig s) +:+ nl
  /\ lines (html (generateCSSCode (step s ResetClick)))
     = ["<div class=" +:+ dq +:+ "grid-container" +:+ dq +:+ ">";
        EmptyString; "</div>"]
  /\ (forall r c : Z, getGridAreaColor (step s ResetClick) r c = EmptyString)
  /\ (forall (now r c : Z) (path : list Cell),
        exists area : GridArea,
          gridAreas (run (step s ResetClick)
                       (MouseDown r c :: moves path ++ [MouseUp now]))
          = [area]
          /\ Some (color area) = AREA_COLORS !! 0%nat).
Proof.
  split; [reflexivity|]. split.
  { rewrite generateTailwindCode_unfold.
    rewrite (lines_app _ _ (nl_free_parent_line _)). reflexivity. }
  split.
  { unfold generateCSSCode, spec_container_rule. cbn [css join].
    rewrite !sapp_assoc. reflexivity. }
  split; [reflexivity|]. split; [reflexivity|].
  intros now r c path. rewrite run_gesture.
  eexists. split; reflexivity.
Qed.

(** ** Numeric fields show what they store *)

Lemma step_dims_nonzero (s : State) (e : Event) :
  columns (gridConfig s) <> 0 /\ rows (gridConfig s) <> 0 ->
  columns (gridConfig (step s e)) <> 0 /\ rows (gridConfig (step s e)) <> 0.
Proof.
  intros [Hc Hr].
  assert (Hd : forall n : option Z, or_default n 1 <> 0).
  { intros [v|]; simpl; [|discriminate].
    destruct (Z.eqb_spec v 0); [discriminate|assumption]. }
  destruct e; try (split; assumption).
  - unfold step, handlerOf. rewrite dispatch_handleMouseEnter.
    split; assumption.
  - unfold step, handlerOf, onMouseUp. rewrite dispatch_handleMouseUp.
    split; assumption.
  - unfold step, handlerOf, onMouseLeave. rewrite dispatch_handleMouseUp.
    split; assumption.
  - split; [apply Hd|assumption].
  - split; [assumption|apply Hd].
Qed.

Lemma reachable_dims_nonzero (s : State) :
  reachable s -> columns (gridConfig s) <> 0 /\ rows (gridConfig s) <> 0.
Proof.
  intros Hs. induction Hs as [|s e _ IH]; [split; discriminate|].
  apply step_dims_nonzero, IH.
Qed.

(** X6.  In every reachable state columns and rows are not 0, and entering
    into a numeric field the very numeral the field shows changes nothing,
    for every field whose value is below 2^53 in magnitude, where the
    numeral is the plain decimal one: parsing undoes printing and the [||]
    fallback does not fire. *)
Theorem numeric_fields_round_trip (s : State) :
  reachable s ->
  columns (gridConfig s) <> 0 /\ rows (gridConfig s) <> 0
  /\ (safe_integer (columns (gridConfig s)) ->
      step s (ColumnsChange (Number_toString (columns (gridConfig s)))) = s)
  /\ (safe_integer (rows (gridConfig s)) ->
      step s (RowsChange (Number_toString (rows (gridConfig s)))) = s)
  /\ (safe_integer (columnGap (gridConfig s)) ->
      step s (ColumnGapChange (Number_toString (columnGap (gridConfig s))))
      = s)
  /\ (safe_integer (rowGap (gridConfig s)) ->
      step s (RowGapChange (Number_toString (rowGap (gridConfig s)))) = s).
Proof.
  intros Hs. destruct (reachable_dims_nonzero s Hs) as [Hc Hr].
  split; [exact Hc|]. split; [exact Hr|].
  unfold step, handlerOf, dispatch, changeColumns, changeRows,
    changeColumnGap, changeRowGap, bind, read, setGridConfig.
  destruct s as [[cs rs cg rg] areas d a b tw]. simpl in *.
  repeat split; intros Hsafe; rewrite (parseInt_Number_toString _ Hsafe);
    simpl.
  - destruct (Z.eqb_spec cs 0); [contradiction|reflexivity].
  - destruct (Z.eqb_spec rs 0); [contradiction|reflexivity].
  - destruct (Z.eqb_spec cg 0) as [->|]; reflexivity.
  - destruct (Z.eqb_spec rg 0) as [->|]; reflexivity.
Qed.

Lemma numeric_fields_round_trip_one_area :
  step one_area_state (ColumnsChange "4") = one_area_state
  /\ step one_area_state (RowsChange "3") = one_area_state
  /\ step one_area_state (ColumnGapChange "4") = one_area_state
  /\ step one_area_state (RowGapChange "4") = one_area_state.
Proof.
  destruct (numeric_fields_round_trip one_area_state
              (reachable_run initialState _ reach_init))
    as (_ & _ & Hc & Hr & Hcg & Hg).
  split; [apply Hc; reflexivity|].
  split; [apply Hr; reflexivity|].
  split; [apply Hcg; reflexivity|apply Hg; reflexivity].
Defined.

(** ** The colour of a cell *)

Lemma find_snoc {A : Type} (p : A -> bool) (l : list A) (a : A) :
  find p (l ++ [a])
  = match find p l with
    | Some x => Some x
    | None => if p a then Some a else None
    end.
Proof.
  induction l as [|x l IH]; simpl; [reflexivity|].
  destruct (p x); [reflexivity|exact IH].
Qed.

Lemma find_none_iff {A : Type} (p : A -> bool) (l : list A) :
  find p l = None <-> Forall (fun x => p x = false) l.
Proof.
  induction l as [|x l IH]; simpl.
  - split; [constructor|reflexivity].
  - destruct (p x) eqn:E.
    + split; [discriminate|]. intros H. inversion H; congruence.
    + rewrite IH. split; [intros H; constructor; assumption|].
      intros H. inversion H; assumption.
Qed.

Lemma find_first {A : Type} (p : A -> bool) (l1 l2 : list A) (a : A) :
  Forall (fun x => p x = false) l1 -> p a = true ->
  find p (l1 ++ a :: l2) = Some a.
Proof.
  intros H Ha. induction H as [|x l1 Hx _ IH]; simpl.
  - rewrite Ha. reflexivity.
  - rewrite Hx. exact IH.
Qed.

(** X7.  Where areas overlap the earliest one wins: a cell takes the colour
    of the first area of the registry that covers it, whatever areas follow,
    and the empty colour when no area covers it. *)
Theorem getGridAreaColor_first_match
    (s : State) (r c : Z) (before after : list GridArea) (a : GridArea) :
  (gridAreas s = before ++ a :: after ->
   Forall (fun x => covers r c x = false) before ->
   covers r c a = true ->
   getGridAreaColor s r c = color a)
  /\ (Forall (fun x => covers r c x = false) (gridAreas s) ->
      getGridAreaColor s r c = EmptyString).
Proof.
  unfold getGridAreaColor. split.
  - intros -> Hb Ha. rewrite (find_first _ _ _ _ Hb Ha). reflexivity.
  - intros H. apply find_none_iff in H. rewrite H. reflexivity.
Qed.

Lemma getGridAreaColor_first_match_scenario :
  getGridAreaColor overlap_state 2 2
  = "bg-gradient-to-br from-blue-500 to-blue-600"
  /\ getGridAreaColor scenario_state 3 3 = EmptyString.
Proof.
  split.
  - refine (proj1 (getGridAreaColor_first_match overlap_state 2 2 []
                     (gridAreas recolored_state)
                     {| id := "area-0"; rowStart := 1; rowEnd := 3;
                        colStart := 1; colEnd := 3;
                        color := "bg-gradient-to-br from-blue-500 to-blue-600"
                     |}) eq_refl _ eq_refl).
    constructor.
  - apply (proj2 (getGridAreaColor_first_match scenario_state 3 3 [] []
                    {| id := EmptyString; rowStart := 0; rowEnd := 0;
                       colStart := 0; colEnd := 0; color := EmptyString |})).
    repeat constructor.
Defined.

(** The preview test is the cover test of the area a release appends. *)
Lemma isInSelection_covers (now : Z) (s : State) (a b : Cell) :
  isDragging s = true -> startCell s = Some a -> currentCell s = Some b ->
  exists area : GridArea,
    gridAreas (dispatch (handleMouseUp now) s) = gridAreas s ++ [area]
    /\ color area = AREA_COLORS !!! (length (gridAreas s) mod 8)%nat
    /\ forall r c : Z, isInSelection s r c = covers r c area.
Proof.
  intros Hd Ha Hb.
  eexists. split; [apply (handleMouseUp_active now s a b Hd Ha Hb)|].
  split; [reflexivity|].
  intros r c. unfold isInSelection, covers. rewrite Hd, Ha, Hb.
  destruct a as [ar ac], b as [br bc]. simpl.
  rewrite !Z.geb_leb.
  destruct (Z.leb_spec (Z.min ar br) r), (Z.leb_spec r (Z.max ar br)),
    (Z.ltb_spec r (Z.max ar br + 1)), (Z.leb_spec (Z.min ac bc) c),
    (Z.leb_spec c (Z.max ac bc)), (Z.ltb_spec c (Z.max ac bc + 1));
    try reflexivity; lia.
Qed.

(** X8.  What a release paints.  A cell that an earlier area covers keeps
    its colour, also under the new area; a previewed cell that no earlier
    area covers takes the next palette colour; every other cell stays
    without colour. *)
Theorem release_paints_uncovered_preview
    (now : Z) (s : State) (a b : Cell) (r c : Z) :
  isDragging s = true -> startCell s = Some a -> currentCell s = Some b ->
  (forall x : GridArea,
     In x (gridAreas s) -> covers r c x = true ->
     getGridAreaColor (dispatch (handleMouseUp now) s) r c
     = getGridAreaColor s r c)
  /\ (Forall (fun x => covers r c x = false) (gridAreas s) ->
      getGridAreaColor (dispatch (handleMouseUp now) s) r c
      = if isInSelection s r c
        then AREA_COLORS !!! (length (gridAreas s) mod 8)%nat
        else EmptyString).
Proof.
  intros Hd Ha Hb.
  destruct (isInSelection_covers now s a b Hd Ha Hb) as (area & Hareas & Hcol & Hsel).
  unfold getGridAreaColor. rewrite Hareas, find_snoc. split.
  - intros x Hx Hcov.
    destruct (find (covers r c) (gridAreas s)) eqn:E; [reflexivity|].
    apply find_none_iff in E. rewrite Forall_forall in E.
    apply list_elem_of_In in Hx. rewrite (E x Hx) in Hcov. discriminate.
  - intros H. apply find_none_iff in H. rewrite H, <- (Hsel r c).
    destruct (isInSelection s r c); [exact Hcol|reflexivity].
Qed.

Lemma release_paints_uncovered_preview_overlap :
  getGridAreaColor (dispatch (handleMouseUp 7) overlap_drag_state) 2 2
  = "bg-gradient-to-br from-blue-500 to-blue-600"
  /\ getGridAreaColor (dispatch (handleMouseUp 7) overlap_drag_state) 3 3
     = "bg-gradient-to-br from-emerald-500 to-emerald-600".
Proof.
  split.
  - refine (proj1 (release_paints_uncovered_preview 7 overlap_drag_state
                     (mkCell 2 2) (mkCell 3 3) 2 2 eq_refl eq_refl eq_refl)
              {| id := "area-0"; rowStart := 1; rowEnd := 3;
                 colStart := 1; colEnd := 3;
                 color := "bg-gradient-to-br from-blue-500 to-blue-600" |}
              _ eq_refl).
    left. reflexivity.
  - refine (proj2 (release_paints_uncovered_preview 7 overlap_drag_state
                     (mkCell 2 2) (mkCell 3 3) 3 3 eq_refl eq_refl eq_refl)
              _).
    repeat constructor.
Defined.

Lemma AREA_COLORS_nonempty (c : string) :
  In c AREA_COLORS -> c <> EmptyString.
Proof.
  intros H. repeat (destruct H as [<-|H]; [discriminate|]). destruct H.
Qed.

Lemma reachable_color_in_palette (s : State) (a : GridArea) :
  reachable s -> In a (gridAreas s) -> In (color a) AREA_COLORS.
Proof.
  intros Hs Ha. apply list_elem_of_In, list_elem_of_lookup in Ha as [i Hi].
  apply list_elem_of_In, list_elem_of_lookup.
  exists (i mod 8)%nat. apply (reachable_palette_colored s Hs i a Hi).
Qed.

(** X9.  In every reachable state a cell has an area colour exactly when
    some area covers it: the colour is the empty string iff no area of the
    registry covers the cell, and otherwise it is one of the eight colours
    of the preview palette. *)
Theorem reachable_cell_colored_iff_covered (s : State) (r c : Z) :
  reachable s ->
  (getGridAreaColor s r c = EmptyString
   <-> Forall (fun x => covers r c x = false) (gridAreas s))
  /\ (getGridAreaColor s r c <> EmptyString ->
      In (getGridAreaColor s r c) AREA_COLORS).
Proof.
  intros Hs. unfold getGridAreaColor.
  destruct (find (covers r c) (gridAreas s)) as [a|] eqn:E.
  - apply find_some in E as [Hin Hcov].
    pose proof (reachable_color_in_palette s a Hs Hin) as Hpal.
    split; [|intros _; exact Hpal].
    split.
    + intros H. destruct (AREA_COLORS_nonempty _ Hpal H).
    + intros H. rewrite Forall_forall in H.
      apply list_elem_of_In in Hin. rewrite (H a Hin) in Hcov. discriminate.
  - split; [|intros H; contradiction].
    split; [intros _; apply find_none_iff, E|reflexivity].
Qed.

Lemma reachable_cell_colored_iff_covered_one_area :
  getGridAreaColor one_area_state 3 4 = EmptyString
  /\ In (getGridAreaColor one_area_state 1 1) AREA_COLORS.
Proof.
  destruct (reachable_cell_colored_iff_covered one_area_state 3 4
              (reachable_run initialState _ reach_init)) as (Hiff & _).
  destruct (reachable_cell_colored_iff_covered one_area_state 1 1
              (reachable_run initialState _ reach_init)) as (_ & Hpal).
  split.
  - apply Hiff. repeat constructor.
  - apply Hpal. discriminate.
Defined.

(** ** The grid of cells *)

Lemma map_flat_map_map {A B C D : Type} (g : C -> D) (h : A -> B -> C)
    (l : list A) (l' : list B) :
  map g (flat_map (fun a => map (h a) l') l)
  = flat_map (fun a => map (fun b => g (h a b)) l') l.
Proof.
  induction l as [|a l IH]; [reflexivity|].
  simpl. rewrite map_app, map_map, IH. reflexivity.
Qed.

Lemma length_flat_map_map {A B C : Type} (h : A -> B -> C)
    (l : list A) (l' : list B) :
  length (flat_map (fun a => map (h a) l') l) = (length l * length l')%nat.
Proof.
  induction l as [|a l IH]; [reflexivity|].
  simpl. rewrite length_app, length_map, IH. reflexivity.
Qed.

Lemma lookup_flat_map_map {A B C : Type} (h : A -> B -> C)
    (l : list A) (l' : list B) (i j : nat) (a : A) (b : B) :
  l !! i = Some a -> l' !! j = Some b ->
  flat_map (fun a => map (h a) l') l !! (i * length l' + j)%nat
  = Some (h a b).
Proof.
  revert i. induction l as [|x l IH]; intros i Hi Hj; [discriminate|].
  simpl. destruct i as [|i].
  - injection Hi as ->. simpl.
    rewrite lookup_app_l by (rewrite length_map; eapply lookup_lt_Some, Hj).
    rewrite list_lookup_fmap, Hj. reflexivity.
  - rewrite lookup_app_r by (rewrite length_map; simpl; lia).
    rewrite length_map.
    replace (S i * length l' + j - length l')%nat
      with (i * length l' + j)%nat by (simpl; lia).
    apply IH; assumption.
Qed.

Lemma in_flat_map_map {A B C : Type} (h : A -> B -> C)
    (l : list A) (l' : list B) (x : C) :
  In x (flat_map (fun a => map (h a) l') l)
  <-> exists (a : A) (b : B), In a l /\ In b l' /\ x = h a b.
Proof.
  rewrite in_flat_map. split.
  - intros (a & Ha & Hx). apply in_map_iff in Hx as (b & <- & Hb).
    exists a, b. repeat split; assumption.
  - intros (a & b & Ha & Hb & ->). exists a. split; [exact Ha|].
    apply in_map_iff. exists b. split; [reflexivity|exact Hb].
Qed.

Lemma In_seqZ_1 (n k : Z) : In k (seqZ 1 n) <-> 1 <= k <= n.
Proof. rewrite <- list_elem_of_In, elem_of_seqZ. lia. Qed.

(** X10.  The grid shows exactly the cells (row, col) with 1 <= row <= rows
    and 1 <= col <= columns, each once, row by row: their number is
    rows * columns (none when either is below 1), and the cell at row 1 + i
    and column 1 + j is the element number i * columns + j. *)
Theorem renderGrid_cells (s : State) :
  length (renderGrid s)
  = (Z.to_nat (rows (gridConfig s)) * Z.to_nat (columns (gridConfig s)))%nat
  /\ (forall cell : GridCell,
        In cell (renderGrid s)
        <-> exists row col : Z,
              1 <= row <= rows (gridConfig s)
              /\ 1 <= col <= columns (gridConfig s)
              /\ cell = gridCell s row col)
  /\ (forall i j : nat,
        Z.of_nat i < rows (gridConfig s) ->
        Z.of_nat j < columns (gridConfig s) ->
        renderGrid s !! (i * Z.to_nat (columns (gridConfig s)) + j)%nat
        = Some (gridCell s (1 + Z.of_nat i) (1 + Z.of_nat j))).
Proof.
  unfold renderGrid. split; [|split].
  - rewrite length_flat_map_map, !length_seqZ. reflexivity.
  - intros cell. rewrite in_flat_map_map.
    split; intros (row & col & H1 & H2 & H3); exists row, col.
    + apply In_seqZ_1 in H1. apply In_seqZ_1 in H2. repeat split; tauto.
    + rewrite !In_seqZ_1. repeat split; tauto.
  - intros i j Hi Hj.
    rewrite <- (length_seqZ 1 (columns (gridConfig s))).
    apply lookup_flat_map_map; apply lookup_seqZ_lt; assumption.
Qed.

Lemma renderGrid_cells_initial :
  length (renderGrid initialState) = 12%nat
  /\ renderGrid initialState !! 6%nat = Some (gridCell initialState 2 3).
Proof.
  destruct (renderGrid_cells initialState) as (Hlen & _ & Hnth).
  split; [exact Hlen|].
  apply (Hnth 1%nat 2%nat); reflexivity.
Defined.

(** ** Keys of the cells *)

Lemma isDecimalDigit_pretty_N_char (d : N) :
  isDecimalDigit (pretty_N_char d) = true.
Proof. unfold pretty_N_char. repeat case_match; reflexivity. Qed.

Lemma all_digits_pretty_N_go (x : N) (s : string) :
  all_digits (pretty_N_go x s) = all_digits s.
Proof.
  revert s. induction (N.lt_wf_0 x) as [x _ IH]; intros s.
  destruct (decide (x = 0%N)) as [->|Hx]; [reflexivity|].
  rewrite pretty_N_go_step by lia.
  rewrite IH by (apply N.div_lt; lia).
  simpl. rewrite isDecimalDigit_pretty_N_char. reflexivity.
Qed.

Lemma all_digits_Number_toString (n : Z) :
  0 <= n -> all_digits (Number_toString n) = true.
Proof.
  intros Hn. unfold Number_toString, pretty, pretty_Z.
  destruct n as [|p|p]; [reflexivity| |lia].
  unfold pretty, pretty_positive, pretty, pretty_N.
  case_decide; [reflexivity|]. apply all_digits_pretty_N_go.
Qed.

(** Two numerals and what follows their hyphens. *)
Lemma digits_hyphen_inj (a a' b b' : string) :
  all_digits a = true -> all_digits a' = true ->
  a +:+ "-" +:+ b = a' +:+ "-" +:+ b' -> a = a' /\ b = b'.
Proof.
  revert a'. induction a as [|x a IH]; intros [|x' a'] Ha Ha' E.
  - injection E as E. split; [reflexivity|exact E].
  - injection E as Ex _. subst x'. discriminate.
  - injection E as Ex _. subst x. discriminate.
  - injection E as Ex E. subst x'.
    simpl in Ha, Ha'. apply andb_true_iff in Ha as [_ Ha].
    apply andb_true_iff in Ha' as [_ Ha'].
    destruct (IH a' Ha Ha' E) as [-> ->]. split; reflexivity.
Qed.

Lemma NoDup_flat_map_map {A B C : Type} (h : A -> B -> C)
    (l : list A) (l' : list B) :
  (forall a a' b b',
     In a l -> In a' l -> In b l' -> In b' l' ->
     h a b = h a' b' -> a = a' /\ b = b') ->
  NoDup l -> NoDup l' ->
  NoDup (flat_map (fun a => map (h a) l') l).
Proof.
  intros Hinj Hl Hl'. induction Hl as [|a l Ha Hl IH]; [constructor|].
  simpl. apply NoDup_app. split; [|split].
  - apply (NoDup_fmap_2_strong (h a)); [|exact Hl'].
    intros b b' Hb Hb' E. apply list_elem_of_In in Hb, Hb'.
    apply (Hinj a a b b'); try assumption; left; reflexivity.
  - intros x Hx Hx'. apply list_elem_of_In in Hx, Hx'.
    apply in_map_iff in Hx as (b & <- & Hb).
    apply in_flat_map_map in Hx' as (a' & b' & Ha' & Hb' & E).
    destruct (Hinj a a' b b') as [-> _]; try assumption;
      [left; reflexivity|right; exact Ha'|].
    apply Ha, list_elem_of_In, Ha'.
  - apply IH. intros a1 a2 b1 b2 H1 H2. apply Hinj; right; assumption.
Qed.

(** X11.  The keys of the cells of one render are pairwise distinct: the
    key [{row}-{col}] determines the row and the column. *)
Theorem renderGrid_keys_unique (s : State) :
  NoDup (map key (renderGrid s))
  /\ (forall row col row' col' : Z,
        1 <= row -> 1 <= col -> 1 <= row' -> 1 <= col' ->
        key (gridCell s row col) = key (gridCell s row' col') ->
        row = row' /\ col = col').
Proof.
  assert (Hinj : forall row col row' col' : Z,
            1 <= row -> 1 <= col -> 1 <= row' -> 1 <= col' ->
            key (gridCell s row col) = key (gridCell s row' col') ->
            row = row' /\ col = col').
  { intros row col row' col' Hr Hc Hr' Hc' E. simpl in E.
    apply digits_hyphen_inj in E as [E1 E2];
      try (apply all_digits_Number_toString; lia).
    split; apply (inj pretty); assumption. }
  split; [|exact Hinj].
  unfold renderGrid. rewrite map_flat_map_map.
  apply (NoDup_flat_map_map (fun row col => key (gridCell s row col)));
    [|apply NoDup_seqZ..].
  intros row row' col col' Hr Hr' Hc Hc'.
  apply In_seqZ_1 in Hr, Hr', Hc, Hc'. apply Hinj; lia.
Qed.

Lemma renderGrid_keys_unique_initial :
  NoDup (map key (renderGrid initialState))
  /\ key (gridCell initialState 1 11) <> key (gridCell initialState 11 1).
Proof.
  destruct (renderGrid_keys_unique initialState) as (Hnd & Hinj).
  split; [exact Hnd|].
  intros E.
  destruct (Hinj 1 11 11 1 ltac:(lia) ltac:(lia) ltac:(lia) ltac:(lia) E)
    as [H _].
  discriminate.
Defined.

(** ** The class attribute of a cell *)

(** X12.  In every reachable state the class attribute of a cell consists,
    token by token, of the five fixed classes, then the three preview
    classes exactly when the cell is previewed, then the gradient classes of
    the first area that covers the cell or, when none does, the two idle
    classes: the preview is added to the area colour and does not replace
    it. *)
Theorem className_tokens (s : State) (r c : Z) :
  reachable s ->
  String.words (className (gridCell s r c))
  = ["grid-cell"; "border"; "border-purple-500/20"; "rounded-lg";
     "cursor-pointer"]
    ++ (if isInSelection s r c
        then ["shadow-lg"; "bg-purple-500/30"; "shadow-purple-500/20"]
        else [])
    ++ match find (covers r c) (gridAreas s) with
       | Some area => String.words (color area)
       | None => ["bg-gray-800/50"; "hover:bg-gray-800/80"]
       end.
Proof.
  intros Hs. unfold gridCell. cbn [className]. unfold getGridAreaColor.
  destruct (find (covers r c) (gridAreas s)) as [a|] eqn:E.
  - apply find_some in E as [Hin _].
    pose proof (reachable_color_in_palette s a Hs Hin) as Hpal.
    destruct (isInSelection s r c);
      repeat (destruct Hpal as [<-|Hpal]; [vm_compute; reflexivity|]); destruct Hpal.
  - destruct (isInSelection s r c); vm_compute; reflexivity.
Qed.

Lemma className_tokens_overlap_drag :
  String.words (className (gridCell overlap_drag_state 2 2))
  = ["grid-cell"; "border"; "border-purple-500/20"; "rounded-lg";
     "cursor-pointer"; "shadow-lg"; "bg-purple-500/30";
     "shadow-purple-500/20"; "bg-gradient-to-br"; "from-blue-500";
     "to-blue-600"].
Proof.
  rewrite (className_tokens overlap_drag_state 2 2
             (reachable_run _ _ (reachable_run _ _ reach_init))).
  vm_compute. reflexivity.
Defined.

(** ** Sessions of a user *)

Lemma user_step_step (s s' : State) :
  user_step s s' ->
  exists e : Event,
    s' = step s e
    /\ match e with
       | MouseDown r c | MouseEnter r c =>
           cell_in_grid (gridConfig s) (mkCell r c)
       | _ => True
       end.
Proof.
  intros H. destruct H as [cell Hc|cell Hc|now|now|v|v|v|v| |v].
  - apply in_flat_map_map in Hc as (r & c & Hr & Hcc & ->).
    apply In_seqZ_1 in Hr, Hcc.
    exists (MouseDown r c). split; [reflexivity|split; assumption].
  - apply in_flat_map_map in Hc as (r & c & Hr & Hcc & ->).
    apply In_seqZ_1 in Hr, Hcc.
    exists (MouseEnter r c). split; [reflexivity|split; assumption].
  - exists (MouseUp now). split; [reflexivity|exact I].
  - exists (MouseLeave now). split; [reflexivity|exact I].
  - exists (ColumnsChange v). split; [reflexivity|exact I].
  - exists (RowsChange v). split; [reflexivity|exact I].
  - exists (ColumnGapChange v). split; [reflexivity|exact I].
  - exists (RowGapChange v). split; [reflexivity|exact I].
  - exists ResetClick. split; [reflexivity|exact I].
  - exists (SyntaxChange v). split; [reflexivity|exact I].
Qed.

Lemma user_reachable_reachable (s : State) : user_reachable s -> reachable s.
Proof.
  intros H. induction H as [|s s' _ IH Hstep]; [apply reach_init|].
  apply user_step_step in Hstep as (e & -> & _). apply reach_step, IH.
Qed.

Lemma cell_in_grid_from_one (c : GridConfig) (x : Cell) :
  cell_in_grid c x -> cell_from_one x.
Proof. unfold cell_in_grid, cell_from_one. lia. Qed.

Lemma step_from_one (s : State) (e : Event) :
  match e with
  | MouseDown r c | MouseEnter r c => cell_from_one (mkCell r c)
  | _ => True
  end ->
  from_one s -> from_one (step s e).
Proof.
  intros He (Hareas & Ha & Hb).
  destruct e; try (split; [exact Hareas|split; assumption]).
  - split; [exact Hareas|].
    split; intros x [= <-]; exact He.
  - unfold step, handlerOf. rewrite dispatch_handleMouseEnter.
    split; [exact Hareas|]. split; [exact Ha|]. simpl.
    destruct (isDragging s); [intros x [= <-]; exact He|exact Hb].
  - unfold step, handlerOf, onMouseUp. rewrite dispatch_handleMouseUp.
    split; [|split; discriminate]. simpl.
    destruct (isDragging s), (startCell s) as [a|] eqn:Ea,
      (currentCell s) as [b|] eqn:Eb; try exact Hareas.
    apply Forall_app. split; [exact Hareas|]. constructor; [|constructor].
    pose proof (Ha a eq_refl). pose proof (Hb b eq_refl).
    unfold area_from_one, cell_from_one in *. simpl. lia.
  - unfold step, handlerOf, onMouseLeave. rewrite dispatch_handleMouseUp.
    split; [|split; discriminate]. simpl.
    destruct (isDragging s), (startCell s) as [a|] eqn:Ea,
      (currentCell s) as [b|] eqn:Eb; try exact Hareas.
    apply Forall_app. split; [exact Hareas|]. constructor; [|constructor].
    pose proof (Ha a eq_refl). pose proof (Hb b eq_refl).
    unfold area_from_one, cell_from_one in *. simpl. lia.
  - split; [constructor|split; assumption].
Qed.

(** X13.  In a session where presses and moves come from the cells the grid
    shows, whatever the numeric fields are set to in between, every area of
    the registry starts at row line 1 or later and at column line 1 or
    later; such a session is also a session of the event model, so all its
    invariants hold. *)
Theorem user_reachable_from_one (s : State) :
  user_reachable s ->
  reachable s /\ Forall area_from_one (gridAreas s).
Proof.
  intros H. split; [apply user_reachable_reachable, H|].
  assert (Hinv : from_one s).
  { induction H as [|s s' _ IH Hstep].
    - split; [constructor|split; discriminate].
    - apply user_step_step in Hstep as (e & -> & He).
      apply step_from_one; [|exact IH].
      destruct e; try exact I; eapply cell_in_grid_from_one, He. }
  apply Hinv.
Qed.

Lemma user_reachable_from_one_press :
  reachable (dispatch (onMouseUp 3)
               (dispatch (handleMouseDown 2 3) initialState))
  /\ Forall area_from_one
       (gridAreas (dispatch (onMouseUp 3)
                     (dispatch (handleMouseDown 2 3) initialState))).
Proof.
  apply user_reachable_from_one.
  apply (user_next (dispatch (handleMouseDown 2 3) initialState));
    [|apply user_release].
  apply (user_next initialState); [apply user_init|].
  apply (user_press initialState (gridCell initialState 2 3)).
  apply (proj2 (in_flat_map_map _ _ _ _)).
  exists 2, 3. split; [|split; [|reflexivity]]; apply In_seqZ_1; simpl; lia.
Defined.

(** ** Areas and the grid *)

Lemma area_in_grid_mono (c c' : GridConfig) (a : GridArea) :
  rows c <= rows c' -> columns c <= columns c' ->
  area_in_grid c a -> area_in_grid c' a.
Proof. unfold area_in_grid. lia. Qed.

Lemma cell_in_grid_mono (c c' : GridConfig) (x : Cell) :
  rows c <= rows c' -> columns c <= columns c' ->
  cell_in_grid c x -> cell_in_grid c' x.
Proof. unfold cell_in_grid. lia. Qed.

(** A state with the same registry and gesture over a grid at least as
    large. *)
Lemma inside_grid_mono (s s' : State) :
  gridAreas s' = gridAreas s -> startCell s' = startCell s ->
  currentCell s' = currentCell s ->
  rows (gridConfig s) <= rows (gridConfig s') ->
  columns (gridConfig s) <= columns (gridConfig s') ->
  inside_grid s -> inside_grid s'.
Proof.
  intros Ea Es Ec Hr Hc (Hareas & Ha & Hb). unfold inside_grid.
  rewrite Ea, Es, Ec. split; [|split].
  - eapply Forall_impl; [exact Hareas|].
    intros a. apply area_in_grid_mono; assumption.
  - intros x Hx. eapply cell_in_grid_mono; eauto.
  - intros x Hx. eapply cell_in_grid_mono; eauto.
Qed.

Lemma release_inside_grid (now : Z) (s : State) :
  inside_grid s -> inside_grid (dispatch (handleMouseUp now) s).
Proof.
  intros (Hareas & Ha & Hb). rewrite dispatch_handleMouseUp.
  split; [|split; discriminate]. simpl.
  destruct (isDragging s), (startCell s) as [a|] eqn:Ea,
    (currentCell s) as [b|] eqn:Eb; try exact Hareas.
  apply Forall_app. split; [exact Hareas|]. constructor; [|constructor].
  pose proof (Ha a eq_refl). pose proof (Hb b eq_refl).
  unfold area_in_grid, cell_in_grid in *. simpl. lia.
Qed.

Lemma step_inside_grid (s : State) (e : Event) :
  match e with
  | MouseDown r c | MouseEnter r c => cell_in_grid (gridConfig s) (mkCell r c)
  | _ => True
  end ->
  rows (gridConfig s) <= rows (gridConfig (step s e)) ->
  columns (gridConfig s) <= columns (gridConfig (step s e)) ->
  inside_grid s -> inside_grid (step s e).
Proof.
  intros He Hr Hc Hs.
  destruct e;
    try (apply (inside_grid_mono s); [reflexivity..|exact Hr|exact Hc|exact Hs]).
  - destruct Hs as (Hareas & _ & _).
    split; [exact Hareas|]. split; intros x [= <-]; exact He.
  - destruct Hs as (Hareas & Ha & Hb).
    unfold step, handlerOf. rewrite dispatch_handleMouseEnter.
    split; [exact Hareas|]. split; [exact Ha|]. simpl.
    destruct (isDragging s); [intros x [= <-]; exact He|exact Hb].
  - apply release_inside_grid, Hs.
  - apply release_inside_grid, Hs.
  - destruct Hs as (_ & Ha & Hb). split; [constructor|split; assumption].
Qed.

Lemma user_press_cell (s : State) (r c : Z) :
  cell_in_grid (gridConfig s) (mkCell r c) ->
  user_step s (step s (MouseDown r c)).
Proof.
  intros [Hr Hc]. apply (user_press s (gridCell s r c)).
  apply (proj2 (in_flat_map_map _ _ _ _)).
  exists r, c. split; [|split; [|reflexivity]]; apply In_seqZ_1; assumption.
Qed.

Lemma user_move_cell (s : State) (r c : Z) :
  cell_in_grid (gridConfig s) (mkCell r c) ->
  user_step s (step s (MouseEnter r c)).
Proof.
  intros [Hr Hc]. apply (user_move s (gridCell s r c)).
  apply (proj2 (in_flat_map_map _ _ _ _)).
  exists r, c. split; [|split; [|reflexivity]]; apply In_seqZ_1; assumption.
Qed.

(** X14.  A user action that does not lower the row count or the column
    count keeps every area, and the gesture, inside the grid: the bounds
    1 <= rowStart, rowEnd <= rows + 1, 1 <= colStart, colEnd <= columns + 1
    are preserved.  Lowering a count clamps nothing: a user can reach a
    state whose registry holds an area outside the grid. *)
Theorem user_step_inside_grid :
  (forall s s' : State,
     user_step s s' ->
     rows (gridConfig s) <= rows (gridConfig s') ->
     columns (gridConfig s) <= columns (gridConfig s') ->
     inside_grid s -> inside_grid s')
  /\ inside_grid initialState
  /\ (exists s : State, user_reachable s /\ ~ inside_grid s).
Proof.
  split; [|split].
  - intros s s' Hstep Hr Hc Hs.
    apply user_step_step in Hstep as (e & -> & He).
    apply step_inside_grid; assumption.
  - split; [constructor|split; discriminate].
  - exists shrunk_state. split.
    + unfold shrunk_state, run. cbn [fold_left].
      eapply user_next; [|apply user_rows].
      eapply user_next; [|apply user_release].
      eapply user_next; [|apply user_move_cell; vm_compute; intuition discriminate].
      eapply user_next; [|apply user_press_cell; vm_compute; intuition discriminate].
      apply user_init.
    + intros (Hareas & _). vm_compute in Hareas.
      inversion Hareas as [|a l Ha _]. subst.
      destruct Ha as (_ & H & _). apply H. reflexivity.
Qed.

Lemma user_step_inside_grid_press :
  inside_grid (step initialState (MouseDown 3 4)).
Proof.
  destruct user_step_inside_grid as (Hstep & Hinit & _).
  apply (Hstep initialState).
  - apply user_press_cell. vm_compute. intuition discriminate.
  - reflexivity.
  - reflexivity.
  - exact Hinit.
Defined.

(** ** The markup of the secondary syntax *)

Lemma nl_free_html_child_line (position : Z) :
  nl_free (html_child_line position) = true.
Proof.
  unfold html_child_line.
  rewrite !nl_free_app, nl_free_Number_toString. reflexivity.
Qed.

(** X15.  The markup of the secondary syntax is the opening tag of the
    container, one element line per area in registry order (a single empty
    line for the empty registry) and the closing tag; the line of the area at
    index i carries the class [grid-area-{i+1}], the name of that area's
    rule in the style sheet. *)
Theorem generateCSSCode_html_lines (s : State) :
  lines (html (generateCSSCode s))
  = ("<div class=" +:+ dq +:+ "grid-container" +:+ dq +:+ ">")
    :: match gridAreas s with
       | [] => [EmptyString]
       | _ :: _ =>
           imap (fun (i : nat) (_ : GridArea) =>
                   html_child_line (Z.of_nat i + 1)) (gridAreas s)
       end ++ ["</div>"]
  /\ forall (i : nat) (a : GridArea),
       gridAreas s !! i = Some a ->
       lines (html (generateCSSCode s)) !! S i
       = Some (html_child_line (Z.of_nat i + 1)).
Proof.
  assert (H : lines (html (generateCSSCode s))
    = ("<div class=" +:+ dq +:+ "grid-container" +:+ dq +:+ ">")
      :: match gridAreas s with
         | [] => [EmptyString]
         | _ :: _ =>
             imap (fun (i : nat) (_ : GridArea) =>
                     html_child_line (Z.of_nat i + 1)) (gridAreas s)
         end ++ ["</div>"]).
  { transitivity
      (lines (("<div class=" +:+ dq +:+ "grid-container" +:+ dq +:+ ">")
              +:+ nl
              +:+ join nl (imap (fun (i : nat) (_ : GridArea) =>
                                   html_child_line (Z.of_nat i + 1))
                             (gridAreas s))
              +:+ nl +:+ "</div>")).
    { reflexivity. }
    rewrite lines_app by reflexivity.
    rewrite lines_join_app.
    - destruct (gridAreas s); reflexivity.
    - apply Forall_lookup. intros i x Hx.
      rewrite list_lookup_imap in Hx.
      destruct (gridAreas s !! i); [|discriminate].
      injection Hx as <-. apply nl_free_html_child_line. }
  split; [exact H|].
  intros i a Hi. rewrite H. simpl.
  destruct (gridAreas s) as [|a0 l] eqn:E; [discriminate|].
  rewrite lookup_app_l.
  - rewrite list_lookup_imap, Hi. reflexivity.
  - rewrite length_imap. eapply lookup_lt_Some, Hi.
Qed.

Lemma generateCSSCode_html_lines_scenario :
  lines (html (generateCSSCode scenario_state)) !! 1%nat
  = Some ("  <div class=" +:+ dq +:+ "grid-area-1" +:+ dq +:+ "></div>").
Proof.
  apply (proj2 (generateCSSCode_html_lines scenario_state) 0%nat
           {| id := "area-0"; rowStart := 1; rowEnd := 3;
              colStart := 1; colEnd := 3;
              color := "bg-gradient-to-br from-blue-500 to-blue-600" |}).
  reflexivity.
Defined.

(** ** The syntax selector and the copy button *)

(** X16.  The selector and the copy button agree with what is shown.
    Choosing the option the selector already shows changes nothing, after a
    choice the selector shows [tailwind] for that option and [css] for any
    other, and the copied text is exactly the shown code blocks joined by one
    blank line (the single block in the primary syntax). *)
Theorem selector_and_copy_follow_display (s : State) :
  step s (SyntaxChange (selectValue s)) = s
  /\ (forall value : string,
        selectValue (step s (SyntaxChange value))
        = if String.eqb value "tailwind" then "tailwind" else "css")
  /\ copyText s = join (nl +:+ nl) (renderCode s)
  /\ (forall value : string,
        copyText (step s (SyntaxChange value))
        = if String.eqb value "tailwind" then generateTailwindCode s
          else css (generateCSSCode s) +:+ nl +:+ nl
               +:+ html (generateCSSCode s)).
Proof.
  split; [|split; [|split]].
  - destruct s as [cfg areas d a b []]; reflexivity.
  - intros value. unfold selectValue, step, handlerOf, dispatch, changeSyntax,
      setShowTailwind. simpl. reflexivity.
  - unfold copyText, renderCode. destruct (showTailwind s); [reflexivity|].
    cbn [join]. rewrite !sapp_assoc. reflexivity.
  - intros value. unfold copyText, step, handlerOf, dispatch, changeSyntax,
      setShowTailwind. simpl.
    destruct (String.eqb value "tailwind"); reflexivity.
Qed.

(** ** Identifiers of the areas *)

Lemma release_times_app (es1 es2 : list Event) :
  release_times (es1 ++ es2) = release_times es1 ++ release_times es2.
Proof. apply flat_map_app. Qed.

(** The ids of the registry come, in order, from clock readings of the
    trace. *)
Lemma ids_from_release_times (es : list Event) :
  exists ts : list Z,
    sublist ts (release_times es)
    /\ map id (gridAreas (run initialState es))
       = map (fun t : Z => "area-" +:+ Number_toString t) ts.
Proof.
  induction es as [|e es IH] using rev_ind.
  - exists []. split; [constructor|reflexivity].
  - destruct IH as (ts & Hsub & Hids).
    rewrite run_app, release_times_app.
    change (run (run initialState es) [e]) with (step (run initialState es) e).
    set (s := run initialState es) in *.
    assert (Hkeep : gridAreas (step s e) = gridAreas s ->
              exists ts' : list Z,
                sublist ts' (release_times es ++ release_times [e])
                /\ map id (gridAreas (step s e))
                   = map (fun t : Z => "area-" +:+ Number_toString t) ts').
    { intros E. exists ts. split; [apply sublist_inserts_r, Hsub|].
      rewrite E. exact Hids. }
    assert (Hrel : forall now : Z,
              release_times [e] = [now] ->
              gridAreas (step s e) = gridAreas (dispatch (handleMouseUp now) s) ->
              exists ts' : list Z,
                sublist ts' (release_times es ++ release_times [e])
                /\ map id (gridAreas (step s e))
                   = map (fun t : Z => "area-" +:+ Number_toString t) ts').
    { intros now Ht E. rewrite Ht, E, dispatch_handleMouseUp. simpl.
      destruct (isDragging s), (startCell s), (currentCell s);
        try (exists ts; split; [apply sublist_inserts_r, Hsub|exact Hids]).
      exists (ts ++ [now]). split; [apply sublist_app; [exact Hsub|reflexivity]|].
      rewrite !map_app, Hids. reflexivity. }
    destruct e; try (apply Hkeep; reflexivity).
    + apply Hkeep. rewrite step_gridAreas. reflexivity.
    + apply (Hrel now); reflexivity.
    + apply (Hrel now); reflexivity.
    + exists []. split; [apply sublist_nil_l|reflexivity].
Qed.

(** X17.  When the clock readings taken at the releases and pointer leaves
    of a session are pairwise distinct, the ids of the areas in the registry
    are pairwise distinct.  Two releases at one reading give two areas with
    one id. *)
Theorem area_ids_unique :
  (forall es : list Event,
     NoDup (release_times es) ->
     NoDup (map id (gridAreas (run initialState es))))
  /\ (forall s : State,
        ~ NoDup (map id (gridAreas (run s [MouseDown 1 1; MouseUp 5;
                                          MouseDown 2 2; MouseUp 5])))).
Proof.
  split.
  - intros es Hnd.
    destruct (ids_from_release_times es) as (ts & Hsub & ->).
    apply NoDup_fmap_2.
    + intros t t' E. apply (inj (String.app "area-")) in E.
      apply (inj pretty), E.
    + eapply sublist_NoDup; eassumption.
  - intros s H.
    change [MouseDown 1 1; MouseUp 5; MouseDown 2 2; MouseUp 5]
      with ((MouseDown 1 1 :: moves [] ++ [MouseUp 5])
            ++ (MouseDown 2 2 :: moves [] ++ [MouseUp 5])) in H.
    rewrite run_app in H.
    rewrite (run_gesture 5 _ 2 2 []), (run_gesture 5 s 1 1 []) in H.
    cbn [gridAreas] in H.
    rewrite !map_app in H. cbn [map id] in H.
    apply NoDup_app in H as (_ & H & _).
    apply (H ("area-" +:+ Number_toString 5)).
    + apply elem_of_app. right. left.
    + left.
Qed.

Lemma area_ids_unique_two_gestures :
  NoDup (map id (gridAreas (run initialState
                              [MouseDown 1 1; MouseUp 5; MouseLeave 6;
                               MouseDown 2 2; MouseUp 7]))).
Proof.
  apply (proj1 area_ids_unique).
  repeat constructor; intros H; repeat (apply elem_of_cons in H as [H|H]);
    try discriminate; inversion H.
Defined.

(** ** What [parseInt] skips *)

Lemma parseDigits_stop (c : ascii) (r : string) (acc : option Z) :
  isDecimalDigit c = false -> parseDigits 10 (String c r) acc = acc.
Proof.
  destruct c as [[] [] [] [] [] [] [] []]; intros H;
    try discriminate; reflexivity.
Qed.

Lemma parseInt_zero_then (c : ascii) (r : string) :
  isDecimalDigit c = false -> c <> "x"%char -> c <> "X"%char ->
  parseInt (String "0" (String c r)) = Some 0.
Proof.
  destruct c as [[] [] [] [] [] [] [] []]; intros H Hx HX;
    try discriminate; try reflexivity;
    try (exfalso; apply Hx; reflexivity);
    try (exfalso; apply HX; reflexivity).
Qed.

(** X18.  A numeric field reads the integer at the start of its text and
    ignores the rest: the numeral of an integer of magnitude below 2^53
    followed by text that starts with a character other than a digit (and
    other than [x] or [X], which after a lone 0 would start a hexadecimal
    numeral) parses to that integer, so a fractional entry is cut at the
    point and columns stores the integer part, or 1 if that is 0; white
    space before the text is skipped. *)
Theorem parseInt_ignores_trailing_text
    (n : Z) (c : ascii) (r : string) (s : State) :
  (safe_integer n ->
   isDecimalDigit c = false -> c <> "x"%char -> c <> "X"%char ->
   parseInt (Number_toString n +:+ String c r) = Some n
   /\ columns (gridConfig
                 (dispatch (changeColumns (Number_toString n +:+ String c r)) s))
      = (if n =? 0 then 1 else n))
  /\ (isStrWhiteSpaceChar c = true -> parseInt (String c r) = parseInt r).
Proof.
  split.
  - intros _ Hc Hx HX.
    assert (H : parseInt (Number_toString n +:+ String c r) = Some n).
    { unfold Number_toString, pretty, pretty_Z.
      destruct n as [|p|p]; [apply parseInt_zero_then; assumption| |].
      - unfold pretty, pretty_positive, pretty, pretty_N.
        case_decide; [discriminate|].
        rewrite pretty_N_go_app, sapp_nil_l.
        destruct (pretty_N_go_head (Npos p) (String c r) ltac:(lia))
          as (h & t & E & Hh).
        rewrite E, (proj1 (parseInt_digit_head h t Hh)).
        rewrite <- E, parseDigits_pretty_N_go by lia.
        rewrite (parseDigits_stop c r _ Hc). reflexivity.
      - unfold pretty, pretty_positive, pretty, pretty_N.
        case_decide; [discriminate|].
        rewrite sapp_assoc, pretty_N_go_app, sapp_nil_l.
        destruct (pretty_N_go_head (Npos p) (String c r) ltac:(lia))
          as (h & t & E & Hh).
        rewrite E. change ("-" +:+ String h t) with (String "-" (String h t)).
        rewrite (proj2 (parseInt_digit_head h t Hh)).
        rewrite <- E, parseDigits_pretty_N_go by lia.
        rewrite (parseDigits_stop c r _ Hc). reflexivity. }
    split; [exact H|].
    change (columns (gridConfig (dispatch (changeColumns ?v) s)))
      with (or_default (parseInt v) 1).
    rewrite H. reflexivity.
  - intros Hw. unfold parseInt. simpl. rewrite Hw. reflexivity.
Qed.

Lemma parseInt_ignores_trailing_text_fraction :
  parseInt "2.75" = Some 2
  /\ columns (gridConfig (dispatch (changeColumns "2.75") initialState)) = 2
  /\ parseInt " 7" = parseInt "7".
Proof.
  destruct (parseInt_ignores_trailing_text 2 "." "75" initialState)
    as (H & _).
  destruct (parseInt_ignores_trailing_text 0 " " "7" initialState)
    as (_ & Hw).
  destruct (H eq_refl eq_refl ltac:(discriminate) ltac:(discriminate))
    as (H1 & H2).
  split; [exact H1|]. split; [exact H2|].
  apply Hw. reflexivity.
Defined.

(** ** Numeric fields are independent *)

(** X5.  An entry in a numeric field commutes with every event that is not
    an entry in the same field - a press, a move, a release, a reset, a
    change of syntax, an entry in another field - so a field never disturbs
    the registry, the gesture or the other fields; of two entries in the
    same field the later one wins. *)
Theorem numeric_fields_independent (s : State) (e1 e2 : Event) :
  is_Some (changed_field e1) ->
  (changed_field e1 <> changed_field e2 ->
   step (step s e1) e2 = step (step s e2) e1)
  /\ (changed_field e1 = changed_field e2 ->
      step (step s e1) e2 = step s e2).
Proof.
  intros [k Hk].
  destruct e1; try discriminate;
    (split; intros H;
     [destruct e2; try (exfalso; apply H; reflexivity);
      destruct s as [[cs rs cg rg] areas [] [a|] [b|] tw]; reflexivity
     |destruct e2; try discriminate; reflexivity]).
Qed.

Lemma numeric_fields_independent_press :
  step (step press_state (RowsChange "5")) (MouseUp 0)
  = step (step press_state (MouseUp 0)) (RowsChange "5")
  /\ step (step press_state (RowsChange "5")) (RowsChange "6")
     = step press_state (RowsChange "6").
Proof.
  destruct (numeric_fields_independent press_state (RowsChange "5") (MouseUp 0))
    as (Hcomm & _); [eexists; reflexivity|].
  destruct (numeric_fields_independent press_state (RowsChange "5")
              (RowsChange "6")) as (_ & Hlast); [eexists; reflexivity|].
  split; [apply Hcomm; discriminate|apply Hlast; reflexivity].
Defined.

(** ** What a gesture paints *)

(** X19.  A gesture paints a rectangle.  After a press on (r, c), any path
    of moves and a release, a cell that no earlier area covered has the next
    palette colour if it lies in the rectangle between the pressed cell and
    the last cell of the path, bounds included, and no colour otherwise. *)
Theorem gesture_paints_rectangle
    (now : Z) (s : State) (r c : Z) (path : list Cell) (r' c' : Z) :
  Forall (fun x => covers r' c' x = false) (gridAreas s) ->
  getGridAreaColor (run s (MouseDown r c :: moves path ++ [MouseUp now])) r' c'
  = if (Z.min r (row (List.last path (mkCell r c))) <=? r')
       && (r' <=? Z.max r (row (List.last path (mkCell r c))))
       && (Z.min c (col (List.last path (mkCell r c))) <=? c')
       && (c' <=? Z.max c (col (List.last path (mkCell r c))))
    then AREA_COLORS !!! (length (gridAreas s) mod 8)%nat
    else EmptyString.
Proof.
  intros H. apply find_none_iff in H.
  rewrite run_gesture. unfold getGridAreaColor. cbn [gridAreas].
  rewrite find_snoc, H. unfold covers. cbn [rowStart rowEnd colStart colEnd color].
  set (last := List.last path (mkCell r c)).
  rewrite !Z.geb_leb.
  destruct (Z.leb_spec (Z.min r (row last)) r'),
    (Z.leb_spec r' (Z.max r (row last))),
    (Z.ltb_spec r' (Z.max r (row last) + 1)),
    (Z.leb_spec (Z.min c (col last)) c'),
    (Z.leb_spec c' (Z.max c (col last))),
    (Z.ltb_spec c' (Z.max c (col last) + 1));
    try reflexivity; lia.
Qed.

Lemma gesture_paints_rectangle_initial :
  getGridAreaColor
    (run initialState
       (MouseDown 3 1 :: moves [mkCell 2 2; mkCell 1 2] ++ [MouseUp 0])) 2 1
  = "bg-gradient-to-br from-blue-500 to-blue-600".
Proof.
  apply (gesture_paints_rectangle 0 initialState 3 1
           [mkCell 2 2; mkCell 1 2] 2 1).
  constructor.
Defined.

(** ** The primary syntax in reachable states *)

Lemma AREA_COLORS_nl_free (c : string) :
  In c AREA_COLORS -> nl_free c = true.
Proof.
  intros H. repeat (destruct H as [<-|H]; [reflexivity|]). destruct H.
Qed.

(** X20.  In every reachable state the primary syntax splits into lines
    without any assumption on the colour tokens: the parent line, one child
    line per area in registry order (one empty line for the empty registry)
    and the closing tag, so the text has the number of areas plus two lines,
    three when there is no area. *)
Theorem reachable_generateTailwindCode_lines (s : State) :
  reachable s ->
  lines (generateTailwindCode s)
  = parent_line (gridConfig s)
    :: match gridAreas s with
       | [] => [EmptyString]
       | _ :: _ => map child_line (gridAreas s)
       end ++ ["</div>"]
  /\ length (lines (generateTailwindCode s))
     = (2 + Nat.max 1 (length (gridAreas s)))%nat.
Proof.
  intros Hs.
  assert (H : lines (generateTailwindCode s)
    = parent_line (gridConfig s)
      :: match gridAreas s with
         | [] => [EmptyString]
         | _ :: _ => map child_line (gridAreas s)
         end ++ ["</div>"]).
  { rewrite generateTailwindCode_unfold.
    rewrite (lines_app _ _ (nl_free_parent_line _)).
    rewrite lines_join_app.
    - destruct (gridAreas s); reflexivity.
    - apply Forall_map, Forall_forall. intros a Ha.
      apply nl_free_child_line, AREA_COLORS_nl_free.
      apply (reachable_color_in_palette s a Hs), list_elem_of_In, Ha. }
  split; [exact H|].
  rewrite H. destruct (gridAreas s) as [|a l]; [reflexivity|].
  simpl. rewrite length_app, length_map. simpl. lia.
Qed.

Lemma reachable_generateTailwindCode_lines_nine :
  length (lines (generateTailwindCode nine_areas_state)) = 11%nat.
Proof.
  apply (proj2 (reachable_generateTailwindCode_lines nine_areas_state
                  (reachable_run initialState _ reach_init))).
Defined.
